(** * Lite6 camera control client: a shallow embedding of
      [scripts/control_client.py] and the properties of its control loop.

    Python [float]s are IEEE 754 binary64 numbers; they are modelled by
    Rocq's primitive floats, whose operations are the same binary64
    operations, so that every arithmetic step of the script can be evaluated.
    The collaborators of the script that are not part of it (the [simple_pid]
    controller, the [rclpy] timers and action client, the [tf2] buffer) are
    modelled by explicit state and by recorded effects. *)

From Stdlib Require Import Floats ZArith List String Bool Lia PeanoNat.
Import ListNotations.

Set Warnings "-inexact-float".

Local Open Scope float_scope.

(** ** Python built-ins on floats *)

Module Py.

(** [min(a, b)]: the first argument is kept unless the second compares
    strictly less ([b < a]). *)
Definition min (a b : float) : float := if b <? a then b else a.

(** [max(a, b)]: the first argument is kept unless the second compares
    strictly greater ([b > a], the same IEEE comparison as [a < b]). *)
Definition max (a b : float) : float := if a <? b then b else a.

(** A float [v] lies in the closed range [[lo, hi]]. *)
Definition in_range (lo hi v : float) : bool := (lo <=? v) && (v <=? hi).

End Py.

(** ** Module constants (lines 15-23) *)

Definition KP : float := 0.01.
Definition KI : float := 0.0.
Definition KD : float := 0.01.

Definition ERROR_THRESHOLD : float := 0.02.
Definition Z_THRESHOLD : float := 0.20.
Definition MOVEMENT_THRESHOLD : float := 0.01.

(** ** Messages *)

(** [geometry_msgs.msg.Point] *)
Record Point : Type := mkPoint { x : float; y : float; z : float }.

(** [geometry_msgs.msg.Quaternion]; a freshly built message is the unit
    quaternion. *)
Record Quaternion : Type :=
  mkQuaternion { qx : float; qy : float; qz : float; qw : float }.

Record Pose : Type := mkPose { position_of : Point; orientation : Quaternion }.

(** [GoToPose.Goal]: the goal of the action carries one pose. *)
Record Goal : Type := mkGoal { pose : Pose }.

Definition Point_default : Point := mkPoint 0.0 0.0 0.0.
Definition Quaternion_default : Quaternion := mkQuaternion 0.0 0.0 0.0 1.0.
Definition Goal_default : Goal :=
  mkGoal (mkPose Point_default Quaternion_default).

(** [std_msgs.msg.Float32MultiArray] keeps its [data] as float32 numbers
    (an [array('f')]): a Python float assigned to it is rounded to the nearest
    binary32 number, ties to even, beyond the largest one to an infinity, and
    is read back as the Python float of the same value. *)
Definition to_float32 (v : float) : float :=
  match Prim2SF v with
  | S754_finite s m e => SF2Prim (binary_round 24 128 s m e)
  | _ => v
  end.

(** ** The axis controller ([simple_pid.PID]) *)

(** Modelled from the spec: the [PID] class comes from the [simple_pid]
    package, which the script imports (line 6) and which is not part of the
    sources.  The record holds the axis state of the specification (gains,
    setpoint, sample period, accumulated integral, previous error) and the
    last output, which the rate limit returns.  Before the first evaluation
    there is no previous error and no previous output ([None]). *)
Record PID : Type := mkPID {
  Kp : float;
  Ki : float;
  Kd : float;
  setpoint : float;
  sample_time : float;
  integral : float;
  previous_error : option float;
  last_output : option float
}.

(** Modelled from the spec: [PID(Kp, Ki, Kd)], a controller that has not been
    evaluated yet; [setpoint] and [sample_time] have the defaults of the
    package (0 and 0.01). *)
Definition PID_new (kp ki kd : float) : PID :=
  mkPID kp ki kd 0.0 0.01 0.0 None None.

Definition set_setpoint (p : PID) (v : float) : PID :=
  mkPID (Kp p) (Ki p) (Kd p) v (sample_time p)
        (integral p) (previous_error p) (last_output p).

Definition set_sample_time (p : PID) (v : float) : PID :=
  mkPID (Kp p) (Ki p) (Kd p) (setpoint p) v
        (integral p) (previous_error p) (last_output p).

(** Modelled from the spec: one evaluation of the control law (section 4.1):
    error = setpoint - measurement; integral += error * sample_period;
    derivative = (error - previous_error) / sample_period;
    output = gain_p * error + gain_i * integral + gain_d * derivative;
    previous_error = error.  On the first evaluation the previous error is the
    error itself, so the derivative term vanishes. *)
Definition pid_evaluate (p : PID) (measurement : float) : PID * float :=
  let error := setpoint p - measurement in
  let integral' := integral p + error * sample_time p in
  let prev := match previous_error p with Some e => e | None => error end in
  let derivative := (error - prev) / sample_time p in
  let output := Kp p * error + Ki p * integral' + Kd p * derivative in
  (mkPID (Kp p) (Ki p) (Kd p) (setpoint p) (sample_time p)
         integral' (Some error) (Some output),
   output).

(** Modelled from the spec: [pid(measurement)].  [elapsed] is the time since
    the last evaluation, which the package reads from the clock.  When less
    than [sample_time] has elapsed the previously computed output is returned
    and the state is left as it is. *)
Definition pid_call (elapsed : float) (p : PID) (measurement : float)
  : PID * float :=
  match last_output p with
  | Some o => if sample_time p <=? elapsed then pid_evaluate p measurement
              else (p, o)
  | None => pid_evaluate p measurement
  end.

(** ** CameraController (lines 27-69) *)

Record CameraController : Type := mkCameraController {
  position : Point;
  pid_x : PID;
  pid_y : PID;
  pid_z : PID;
  clip_val : float
}.

(** [CameraController.__init__] *)
Definition CameraController_init : CameraController :=
  mkCameraController
    (mkPoint 0.0 0.0 0.0)
    (set_sample_time (PID_new KP KI KD) 0.0333)
    (set_sample_time (PID_new KP KI KD) 0.0333)
    (set_sample_time (PID_new KP KI KD) 0.0333)
    0.1.

(** [set_new_goal]: three attribute assignments, one per axis. *)
Definition set_new_goal (c : CameraController) (target_position : Point)
  : CameraController :=
  mkCameraController
    (position c)
    (set_setpoint (pid_x c) (x target_position))
    (set_setpoint (pid_y c) (y target_position))
    (set_setpoint (pid_z c) (z target_position))
    (clip_val c).

(** [get_position_error] *)
Definition get_position_error (c : CameraController) : float * float * float :=
  (abs (x (position c) - setpoint (pid_x c)),
   abs (y (position c) - setpoint (pid_y c)),
   abs (z (position c) - setpoint (pid_z c))).

(** The clock readings of one tick: the time elapsed since the last
    evaluation of each axis controller, at the moment it is called. *)
Record Elapsed : Type := mkElapsed { el_x : float; el_y : float; el_z : float }.

(** The saturation of lines 59-61: [max(min(v, clip_val), -clip_val)]. *)
Definition saturate (clip v : float) : float :=
  Py.max (Py.min v clip) (- clip).

(** The three raw controller outputs of lines 54-56. *)
Definition raw_velocity (el : Elapsed) (c : CameraController)
  : float * float * float :=
  (snd (pid_call (el_x el) (pid_x c) (x (position c))),
   snd (pid_call (el_y el) (pid_y c) (y (position c))),
   snd (pid_call (el_z el) (pid_z c) (z (position c)))).

(** The three saturated velocities, as they stand after lines 59-61. *)
Definition applied_velocity (el : Elapsed) (c : CameraController)
  : float * float * float :=
  let '(vx, vy, vz) := raw_velocity el c in
  (saturate (clip_val c) vx, saturate (clip_val c) vy, saturate (clip_val c) vz).

(** [update_position] *)
Definition update_position (el : Elapsed) (c : CameraController)
  : CameraController :=
  let '(pid_x', velocity_x) := pid_call (el_x el) (pid_x c) (x (position c)) in
  let '(pid_y', velocity_y) := pid_call (el_y el) (pid_y c) (y (position c)) in
  let '(pid_z', velocity_z) := pid_call (el_z el) (pid_z c) (z (position c)) in
  let velocity_x := Py.max (Py.min velocity_x (clip_val c)) (- clip_val c) in
  let velocity_y := Py.max (Py.min velocity_y (clip_val c)) (- clip_val c) in
  let velocity_z := Py.max (Py.min velocity_z (clip_val c)) (- clip_val c) in
  mkCameraController
    (mkPoint (x (position c) + velocity_x * sample_time pid_x')
             (y (position c) + velocity_y * sample_time pid_y')
             (z (position c) + velocity_z * sample_time pid_z'))
    pid_x' pid_y' pid_z'
    (clip_val c).

(** [log]: the string is kept as the position it formats. *)
Definition log (c : CameraController) : Point := position c.

(** ** The collaborators of the node *)

(** The exceptions of [tf2_ros] that the detection callback catches. *)
Inductive TfError : Type :=
  | LookupException
  | ConnectivityException
  | ExtrapolationException.

(** The outcome of [tf_buffer.lookup_transform]: a transform, kept as the
    map [do_transform_point] applies to a point, or one of the exceptions. *)
Inductive TfLookup : Type :=
  | TfFound (do_transform_point : Point -> Point)
  | TfRaise (e : TfError).

Record Marker : Type := mkMarker { marker_pose : Pose }.
Record MarkerArray : Type := mkMarkerArray { markers : list Marker }.

(** A timer of the node, as [create_timer] makes it; every timer of this
    node calls [control_loop]. *)
Record Timer : Type := mkTimer { timer_period : float; is_canceled : bool }.

(** The continuations the script registers with [add_done_callback]. *)
Inductive Callback : Type :=
  | goal_response_cb
  | get_result_cb.

(** The outcome of one goal request (specification, section 3). *)
Inductive GoalOutcome : Type :=
  | Pending
  | Accepted
  | Rejected
  | Succeeded
  | Failed.

(** One dispatched goal: the request that was sent, the outcome reached so
    far and the continuation waiting on its future, if any. *)
Record Request : Type := mkRequest {
  req_goal : Goal;
  req_outcome : GoalOutcome;
  req_callback : option Callback
}.

(** What the logger is given. *)
Inductive LogMsg : Type :=
  | MsgReceivedMarker (p : Point)
  | MsgTransformFailed (e : TfError)
  | MsgReached
  | MsgCamera (p : Point)
  | MsgGoal (gx gy gz : float)
  | MsgRejected
  | MsgAccepted
  | MsgResult (success : bool)
  | MsgSucceeded
  | MsgFailed.

(** The calls a callback makes on its collaborators, in order.  [Publish]
    carries the data of the message as it is published. *)
Inductive Effect : Type :=
  | LogInfo (m : LogMsg)
  | LogError (m : LogMsg)
  | PrintOut (s : string)
  | LookupTransform (target source : string) (timeout_sec : float)
  | CreateTimer (period : float) (handle : nat)
  | CancelTimer (handle : nat)
  | Publish (data : list float)
  | WaitForServer (timeout_sec : float)
  | SendGoalAsync (g : Goal)
  | GetResultAsync
  | AddDoneCallback (cb : Callback).

Inductive Exception : Type :=
  | AttributeError.

Inductive Result (A : Type) : Type :=
  | Ok (a : A)
  | Raise (e : Exception).

Arguments Ok {A} a.
Arguments Raise {A} e.

(** ** ControllerNode (lines 73-179) *)

(** The node: its attributes, the timers it has created (a handle is the
    index of the timer in creation order) and the goals it has sent. *)
Record ControllerNode : Type := mkNode {
  camera_controller : CameraController;
  camera_controller_timer : option nat;
  timers : list Timer;
  requests : list Request
}.

(** [ControllerNode.__init__] *)
Definition ControllerNode_init : ControllerNode :=
  mkNode CameraController_init None [] [].

(** [Timer.cancel] on the timer with the given handle. *)
Fixpoint cancel (h : nat) (ts : list Timer) : list Timer :=
  match ts, h with
  | [], _ => []
  | t :: ts', O => mkTimer (timer_period t) true :: ts'
  | t :: ts', S h' => t :: cancel h' ts'
  end.

(** The timers that still fire. *)
Definition active_timers (n : ControllerNode) : list Timer :=
  filter (fun t => negb (is_canceled t)) (timers n).

(** [detection_callback] *)
Definition detection_callback (tf : TfLookup) (msg : MarkerArray)
  (n : ControllerNode) : ControllerNode * list Effect :=
  match markers msg with
  | [] => (n, [])
  | marker :: _ =>
    let lookup := LookupTransform "world" "camera_depth_frame" 1.0 in
    match tf with
    | TfFound do_transform_point =>
      let world_point := do_transform_point (position_of (marker_pose marker)) in
      let c := set_new_goal (camera_controller n) world_point in
      let handle := List.length (timers n) in
      let period := sample_time (pid_x c) in
      (mkNode c (Some handle) (timers n ++ [mkTimer period false]) (requests n),
       [lookup; LogInfo (MsgReceivedMarker world_point);
        CreateTimer period handle])
    | TfRaise e => (n, [lookup; LogError (MsgTransformFailed e)])
    end
  end.

(** [send_goal]; [server_ready] is what [wait_for_server] returns, which the
    script does not look at. *)
Definition send_goal (server_ready : bool) (gx gy gz : float)
  (n : ControllerNode) : ControllerNode * list Effect :=
  let goal_msg :=
    mkGoal (mkPose (mkPoint gx gy gz)
                   (mkQuaternion (qx (orientation (pose Goal_default)))
                                 (qy (orientation (pose Goal_default)))
                                 (qz (orientation (pose Goal_default)))
                                 1.0)) in
  (mkNode (camera_controller n) (camera_controller_timer n) (timers n)
          (requests n ++ [mkRequest goal_msg Pending (Some goal_response_cb)]),
   [PrintOut "Waiting for server"; WaitForServer 1.0; PrintOut "Sending goal";
    SendGoalAsync goal_msg; AddDoneCallback goal_response_cb]).

(** The test of line 126 on the triple [get_position_error] returns. *)
Definition below_threshold (err : float * float * float) : bool :=
  let '(err_x, err_y, err_z) := err in
  (abs err_x <? ERROR_THRESHOLD) && (abs err_y <? ERROR_THRESHOLD)
  && (abs err_z <? Z_THRESHOLD).

(** [control_loop].  The goal is built from the Python floats of the
    position; the message published on [goal_coordinates] holds them as
    float32. *)
Definition control_loop (el : Elapsed) (server_ready : bool)
  (n : ControllerNode) : Result (ControllerNode * list Effect) :=
  if below_threshold (get_position_error (camera_controller n)) then
    match camera_controller_timer n with
    | None => Raise AttributeError
    | Some handle =>
      Ok (mkNode (camera_controller n) (camera_controller_timer n)
                 (cancel handle (timers n)) (requests n),
          [CancelTimer handle; LogInfo MsgReached])
    end
  else
    let c := update_position el (camera_controller n) in
    let goal_x := x (position c) in
    let goal_y := y (position c) in
    let goal_z := z (position c) in
    let n1 := mkNode c (camera_controller_timer n) (timers n) (requests n) in
    let '(n2, sent) := send_goal server_ready goal_x goal_y goal_z n1 in
    Ok (n2,
        [LogInfo (MsgCamera (log c)); LogInfo (MsgGoal goal_x goal_y goal_z);
         Publish [to_float32 goal_x; to_float32 goal_y; to_float32 goal_z]]
        ++ sent).

(** [goal_response_callback] on the request whose future completed:
    [accepted] is [goal_handle.accepted]. *)
Definition goal_response_callback (accepted : bool) (r : Request)
  : Request * list Effect :=
  if negb accepted then
    (mkRequest (req_goal r) Rejected None, [LogInfo MsgRejected])
  else
    (mkRequest (req_goal r) Accepted (Some get_result_cb),
     [LogInfo MsgAccepted; GetResultAsync; AddDoneCallback get_result_cb]).

(** [get_result_callback]: [success] is [result.success]. *)
Definition get_result_callback (success : bool) (r : Request)
  : Request * list Effect :=
  if success then
    (mkRequest (req_goal r) Succeeded None,
     [LogInfo (MsgResult success); LogInfo MsgSucceeded])
  else
    (mkRequest (req_goal r) Failed None,
     [LogInfo (MsgResult success); LogInfo MsgFailed]).

(** What the action server tells the client about one goal. *)
Inductive ServerEvent : Type :=
  | Response (accepted : bool)
  | ResultReady (success : bool).

(** A future that completes runs the continuation registered on it, and a
    completion nobody waits for runs nothing. *)
Definition deliver (ev : ServerEvent) (r : Request) : Request * list Effect :=
  match req_callback r, ev with
  | Some goal_response_cb, Response accepted => goal_response_callback accepted r
  | Some get_result_cb, ResultReady success => get_result_callback success r
  | _, _ => (r, [])
  end.

(** ** The executor *)

(** What the executor hands to the node: a detection message (with the
    outcome the transform lookup will have), the firing of a timer (with the
    clock readings of that tick and the outcome of the wait for the server),
    and the completion of the future of a sent goal. *)
Inductive Event : Type :=
  | Detection (tf : TfLookup) (msg : MarkerArray)
  | Tick (handle : nat) (el : Elapsed) (server_ready : bool)
  | Completion (i : nat) (ev : ServerEvent).

(** A timer fires only while it exists and has not been cancelled. *)
Definition fires (handle : nat) (n : ControllerNode) : bool :=
  match nth_error (timers n) handle with
  | Some t => negb (is_canceled t)
  | None => false
  end.

Fixpoint replace_nth {A : Type} (i : nat) (a : A) (l : list A) : list A :=
  match l, i with
  | [], _ => []
  | _ :: l', O => a :: l'
  | b :: l', S i' => b :: replace_nth i' a l'
  end.

Definition dispatch (ev : Event) (n : ControllerNode)
  : Result (ControllerNode * list Effect) :=
  match ev with
  | Detection tf msg => Ok (detection_callback tf msg n)
  | Tick handle el server_ready =>
    if fires handle n then control_loop el server_ready n else Ok (n, [])
  | Completion i ev =>
    match nth_error (requests n) i with
    | Some r =>
      let '(r', effects) := deliver ev r in
      Ok (mkNode (camera_controller n) (camera_controller_timer n) (timers n)
                 (replace_nth i r' (requests n)),
          effects)
    | None => Ok (n, [])
    end
  end.

(** The node after a sequence of events, with everything it did. *)
Fixpoint run (evs : list Event) (n : ControllerNode)
  : Result (ControllerNode * list Effect) :=
  match evs with
  | [] => Ok (n, [])
  | ev :: evs' =>
    match dispatch ev n with
    | Ok (n', effects) =>
      match run evs' n' with
      | Ok (n'', effects') => Ok (n'', effects ++ effects')
      | Raise e => Raise e
      end
    | Raise e => Raise e
    end
  end.

(** The states the node can be in: those a sequence of events leads to from
    the state [__init__] builds. *)
Definition reachable (n : ControllerNode) : Prop :=
  exists evs effects, run evs ControllerNode_init = Ok (n, effects).

(** Counting effects of one kind. *)
Definition is_cancel (e : Effect) : bool :=
  match e with CancelTimer _ => true | _ => false end.

Definition is_publish (e : Effect) : bool :=
  match e with Publish _ => true | _ => false end.

Definition is_send (e : Effect) : bool :=
  match e with SendGoalAsync _ => true | _ => false end.

Definition is_lookup (e : Effect) : bool :=
  match e with LookupTransform _ _ _ => true | _ => false end.

Definition is_create_timer (e : Effect) : bool :=
  match e with CreateTimer _ _ => true | _ => false end.

Definition count (f : Effect -> bool) (l : list Effect) : nat :=
  List.length (filter f l).




(** The continuation that waits on a request is the one its outcome calls
    for: the response callback while pending, the result callback once
    accepted, none afterwards. *)
Definition request_ok (r : Request) : Prop :=
  req_callback r =
  match req_outcome r with
  | Pending => Some goal_response_cb
  | Accepted => Some get_result_cb
  | Rejected | Succeeded | Failed => None
  end.

(** The attribute [camera_controller_timer] holds the handle of the timer
    created last, and [None] exactly as long as no timer was created. *)
Definition handle_ok (n : ControllerNode) : Prop :=
  camera_controller_timer n =
  match timers n with
  | [] => None
  | _ :: _ => Some (List.length (timers n) - 1)%nat
  end.

(** A detection message with one marker at the given point. *)
Definition one_marker (p : Point) : MarkerArray :=
  mkMarkerArray [mkMarker (mkPose p Quaternion_default)].

(** A transform lookup that succeeds with the identity transform. *)
Definition tf_identity : TfLookup := TfFound (fun p => p).

(** A tick at which every axis controller sees a full sample period. *)
Definition full_period : Elapsed := mkElapsed 0.0333 0.0333 0.0333.

(** The three axes, to speak of each of them. *)
Inductive Axis : Type := AxisX | AxisY | AxisZ.

Definition coordinate (a : Axis) (p : Point) : float :=
  match a with AxisX => x p | AxisY => y p | AxisZ => z p end.

Definition component (a : Axis) (t : float * float * float) : float :=
  let '(tx, ty, tz) := t in
  match a with AxisX => tx | AxisY => ty | AxisZ => tz end.

Definition axis_pid (a : Axis) (c : CameraController) : PID :=
  match a with AxisX => pid_x c | AxisY => pid_y c | AxisZ => pid_z c end.

Definition axis_elapsed (a : Axis) (el : Elapsed) : float :=
  match a with AxisX => el_x el | AxisY => el_y el | AxisZ => el_z el end.

(** A tick reports convergence by logging that the target was reached. *)
Definition is_reached (e : Effect) : bool :=
  match e with LogInfo MsgReached => true | _ => false end.

Definition reports_converged (r : Result (ControllerNode * list Effect))
  : bool :=
  match r with
  | Ok (_, effects) => existsb is_reached effects
  | Raise _ => false
  end.

(** The node after the first detection of a target at the given point. *)
Definition node_with_target (p : Point) : ControllerNode :=
  fst (detection_callback tf_identity (one_marker p) ControllerNode_init).

(** The node a sequence of events leaves, from the initial one. *)
Definition node_after (evs : list Event) : ControllerNode :=
  match run evs ControllerNode_init with
  | Ok (n, _) => n
  | Raise _ => ControllerNode_init
  end.

(** A run in which the first goal sent is rejected by the server. *)
Definition rejected_run : list Event :=
  [Detection tf_identity (one_marker (mkPoint 1.0 0.0 0.0));
   Tick 0 full_period true;
   Completion 0 (Response false)].

(** The configuration [__init__] gives the controller: the clip value, and
    for every axis the sample period and the three gains. *)
Definition config_ok (c : CameraController) : Prop :=
  clip_val c = 0.1 /\
  forall a : Axis,
    sample_time (axis_pid a c) = 0.0333 /\
    Kp (axis_pid a c) = KP /\ Ki (axis_pid a c) = KI /\ Kd (axis_pid a c) = KD.

(** A point whose three coordinates are finite numbers. *)
Definition finite_point (p : Point) : bool :=
  is_finite (x p) && is_finite (y p) && is_finite (z p).

Definition is_detection (ev : Event) : bool :=
  match ev with Detection _ _ => true | _ => false end.

(** The goal [send_goal] builds for a commanded position. *)
Definition goal_at (p : Point) : Goal :=
  mkGoal (mkPose (mkPoint (x p) (y p) (z p)) (mkQuaternion 0.0 0.0 0.0 1.0)).

(** The goals of the requests, in the order they were sent. *)
Definition sent_goals (n : ControllerNode) : list Goal :=
  map req_goal (requests n).

(** The controller after a series of calls of [update_position], one for
    each reading of the clock. *)
Definition ticks (els : list Elapsed) (c : CameraController)
  : CameraController :=
  fold_left (fun c el => update_position el c) els c.

(** The outcome the two callbacks report for a goal, from the answer of the
    server to the request and, if there is one, to the execution. *)
Definition reported_outcome (accepted success : bool) : GoalOutcome :=
  if accepted then (if success then Succeeded else Failed) else Rejected.

Definition is_get_result (e : Effect) : bool :=
  match e with GetResultAsync => true | _ => false end.

(** * Properties *)

(** ** The order of binary64 numbers

    Comparisons of primitive floats are those of their specification
    ([SFcompare]), which is defined by cases on the two numbers. *)

Lemma cont_antisym (p q : positive) :
  Pos.compare_cont Eq p q = CompOpp (Pos.compare_cont Eq q p).
Proof. rewrite (Pos.compare_cont_antisym q p Eq). reflexivity. Qed.

Lemma SFcompare_antisym (a b : spec_float) (o : comparison) :
  SFcompare a b = Some o -> SFcompare b a = Some (CompOpp o).
Proof.
  destruct a as [sa|sa| |sa ma ea], b as [sb|sb| |sb mb eb]; simpl;
    try discriminate;
    try (destruct sa; intros [= <-]; reflexivity);
    try (destruct sb; intros [= <-]; reflexivity);
    try (destruct sa, sb; intros [= <-]; reflexivity).
  rewrite (Z.compare_antisym eb ea), (cont_antisym ma mb).
  destruct sa, sb; intros [= <-]; try reflexivity;
    destruct (eb ?= ea)%Z; simpl; try reflexivity;
    destruct (Pos.compare_cont Eq mb ma); reflexivity.
Qed.

Lemma SFcompare_defined (a b : spec_float) :
  a <> S754_nan -> b <> S754_nan -> exists o, SFcompare a b = Some o.
Proof.
  destruct a, b; simpl; intros Ha Hb; try congruence; eauto.
Qed.

Lemma SFcompare_refl (a : spec_float) :
  a <> S754_nan -> SFcompare a a = Some Eq.
Proof.
  destruct a as [s|s| |s m e]; simpl; intros Ha; try congruence.
  - destruct s; reflexivity.
  - rewrite Z.compare_refl, Pos.compare_cont_refl. destruct s; reflexivity.
Qed.

Lemma SFcompare_opp (a b : spec_float) :
  SFcompare (SFopp a) (SFopp b) = SFcompare b a.
Proof.
  destruct a as [sa|sa| |sa ma ea], b as [sb|sb| |sb mb eb]; simpl;
    try reflexivity;
    try (destruct sa; reflexivity);
    try (destruct sb; reflexivity);
    try (destruct sa, sb; reflexivity).
  rewrite (Z.compare_antisym eb ea), (cont_antisym ma mb).
  destruct sa, sb; simpl; try reflexivity;
    destruct (eb ?= ea)%Z; simpl; try reflexivity;
    destruct (Pos.compare_cont Eq mb ma); reflexivity.
Qed.

Lemma is_nan_spec (v : float) :
  is_nan v = false <-> Prim2SF v <> S754_nan.
Proof.
  unfold is_nan. rewrite FloatAxioms.eqb_spec. unfold SFeqb. split.
  - intros H E. rewrite E in H. discriminate.
  - intros H. rewrite SFcompare_refl by exact H. reflexivity.
Qed.

(** The same facts on the primitive comparisons [<?] and [<=?]. *)

Lemma ltb_false_leb (a b : float) :
  is_nan a = false -> is_nan b = false -> (a <? b) = false -> (b <=? a) = true.
Proof.
  rewrite !is_nan_spec, FloatAxioms.ltb_spec, FloatAxioms.leb_spec.
  unfold SFltb, SFleb.
  intros Ha Hb. destruct (SFcompare_defined _ _ Ha Hb) as [o Ho].
  rewrite Ho, (SFcompare_antisym _ _ _ Ho). destruct o; simpl; congruence.
Qed.

Lemma leb_refl (a : float) : is_nan a = false -> (a <=? a) = true.
Proof.
  rewrite is_nan_spec, FloatAxioms.leb_spec. unfold SFleb. intros Ha.
  rewrite SFcompare_refl by exact Ha. reflexivity.
Qed.

Lemma leb_not_nan (a b : float) :
  (a <=? b) = true -> is_nan a = false /\ is_nan b = false.
Proof.
  rewrite !is_nan_spec, FloatAxioms.leb_spec. unfold SFleb.
  destruct (Prim2SF a), (Prim2SF b); simpl; try discriminate;
    intros _; split; discriminate.
Qed.

Lemma is_nan_opp (a : float) : is_nan (- a) = is_nan a.
Proof.
  destruct (is_nan a) eqn:E.
  - destruct (is_nan (- a)) eqn:E'; [reflexivity|].
    apply is_nan_spec in E'. rewrite FloatAxioms.opp_spec in E'.
    assert (Prim2SF a <> S754_nan) as H
      by (intros H; rewrite H in E'; apply E'; reflexivity).
    apply is_nan_spec in H. congruence.
  - apply is_nan_spec. apply is_nan_spec in E. rewrite FloatAxioms.opp_spec.
    destruct (Prim2SF a); simpl; congruence.
Qed.

Lemma opp_leb_self (c : float) : (0 <=? c) = true -> (- c <=? c) = true.
Proof.
  rewrite !FloatAxioms.leb_spec, FloatAxioms.opp_spec. unfold SFleb.
  change (Prim2SF 0) with (S754_zero false).
  destruct (Prim2SF c) as [s|s| |s m e]; simpl; try discriminate;
    destruct s; simpl; try discriminate; reflexivity.
Qed.

Lemma abs_leb (c v : float) :
  (- c <=? v) = true -> (v <=? c) = true -> (abs v <=? c) = true.
Proof.
  rewrite !FloatAxioms.leb_spec, FloatAxioms.abs_spec, FloatAxioms.opp_spec.
  unfold SFleb.
  rewrite <- (SFcompare_opp (Prim2SF v) (SFopp (Prim2SF c))).
  destruct (Prim2SF c) as [sc|sc| |sc mc ec], (Prim2SF v) as [sv|sv| |sv mv ev];
    simpl; try discriminate; try (destruct sv; simpl; tauto).
  all: destruct sc, sv; simpl; try discriminate; try tauto.
Qed.

Lemma leb_ltb_false (a b : float) : (a <=? b) = true -> (b <? a) = false.
Proof.
  rewrite FloatAxioms.leb_spec, FloatAxioms.ltb_spec. unfold SFleb, SFltb.
  destruct (SFcompare (Prim2SF a) (Prim2SF b)) as [o|] eqn:Ho;
    [|discriminate].
  rewrite (SFcompare_antisym _ _ _ Ho). destruct o; simpl; congruence.
Qed.

Lemma ltb_nan_r (a b : float) : is_nan b = true -> (a <? b) = false.
Proof.
  intros Hb. rewrite FloatAxioms.ltb_spec. unfold SFltb.
  destruct (Prim2SF b) eqn:E;
    try (assert (is_nan b = false)
           by (apply is_nan_spec; rewrite E; discriminate); congruence).
  destruct (Prim2SF a); reflexivity.
Qed.

Lemma ltb_nan_l (a b : float) : is_nan a = true -> (a <? b) = false.
Proof.
  intros Ha. rewrite FloatAxioms.ltb_spec. unfold SFltb.
  destruct (Prim2SF a) eqn:E;
    try (assert (is_nan a = false)
           by (apply is_nan_spec; rewrite E; discriminate); congruence).
  reflexivity.
Qed.

(** ** Saturation (lines 59-61) *)

Section Saturation.

Variables clip v : float.

(** A raw output that is a number is brought into the closed range. *)
Lemma saturate_in_range :
  (0 <=? clip) = true -> is_nan v = false ->
  (- clip <=? saturate clip v) = true /\ (saturate clip v <=? clip) = true.
Proof.
  intros Hc Hv.
  assert (is_nan clip = false) as Hn by (apply (leb_not_nan _ _ Hc)).
  assert (is_nan (- clip) = false) as Hno by (rewrite is_nan_opp; exact Hn).
  pose proof (opp_leb_self _ Hc) as Hoc.
  unfold saturate, Py.max, Py.min.
  destruct (clip <? v) eqn:E1.
  - destruct (clip <? - clip) eqn:E2; split;
      auto using leb_refl.
  - destruct (v <? - clip) eqn:E2; split;
      auto using leb_refl, ltb_false_leb.
Qed.

(** A raw output that is not a number goes through both comparisons. *)
Lemma saturate_nan : is_nan v = true -> saturate clip v = v.
Proof.
  intros Hv. unfold saturate, Py.max, Py.min.
  rewrite (ltb_nan_r clip v Hv), (ltb_nan_l v (- clip) Hv). reflexivity.
Qed.

End Saturation.

(** ** The axis controller keeps its configuration *)

Lemma pid_call_config (elapsed : float) (p : PID) (m : float) :
  let p' := fst (pid_call elapsed p m) in
  Kp p' = Kp p /\ Ki p' = Ki p /\ Kd p' = Kd p /\
  setpoint p' = setpoint p /\ sample_time p' = sample_time p.
Proof.
  unfold pid_call. destruct (last_output p) as [o|];
    [destruct (sample_time p <=? elapsed)|]; simpl; repeat split; reflexivity.
Qed.

Lemma update_position_unfold (el : Elapsed) (c : CameraController) :
  update_position el c =
  let rx := pid_call (el_x el) (pid_x c) (x (position c)) in
  let ry := pid_call (el_y el) (pid_y c) (y (position c)) in
  let rz := pid_call (el_z el) (pid_z c) (z (position c)) in
  mkCameraController
    (mkPoint
       (x (position c) + saturate (clip_val c) (snd rx) * sample_time (fst rx))
       (y (position c) + saturate (clip_val c) (snd ry) * sample_time (fst ry))
       (z (position c) + saturate (clip_val c) (snd rz) * sample_time (fst rz)))
    (fst rx) (fst ry) (fst rz) (clip_val c).
Proof.
  unfold update_position.
  destruct (pid_call (el_x el) (pid_x c) (x (position c))) as [px vx].
  destruct (pid_call (el_y el) (pid_y c) (y (position c))) as [py vy].
  destruct (pid_call (el_z el) (pid_z c) (z (position c))) as [pz vz].
  reflexivity.
Qed.

Lemma applied_velocity_component (a : Axis) (el : Elapsed)
  (c : CameraController) :
  component a (applied_velocity el c) =
  saturate (clip_val c) (component a (raw_velocity el c)).
Proof. destruct a; reflexivity. Qed.

Lemma raw_velocity_component (a : Axis) (el : Elapsed) (c : CameraController) :
  component a (raw_velocity el c) =
  snd (pid_call (axis_elapsed a el) (axis_pid a c) (coordinate a (position c))).
Proof. destruct a; reflexivity. Qed.

(** What one tick adds to a coordinate is the saturated velocity of that
    axis times the sample period. *)
Lemma update_position_coordinate (a : Axis) (el : Elapsed)
  (c : CameraController) :
  coordinate a (position (update_position el c)) =
  coordinate a (position c)
  + component a (applied_velocity el c) * sample_time (axis_pid a c).
Proof.
  rewrite update_position_unfold, applied_velocity_component,
    raw_velocity_component.
  destruct a; simpl;
    match goal with
    | |- context [sample_time (fst (pid_call ?e ?p ?m))] =>
      destruct (pid_call_config e p m) as (_ & _ & _ & _ & ->)
    end; reflexivity.
Qed.

(** ** Claims on the camera controller *)

(** C1 (as amended).  On every position-update tick and for every axis whose
    raw controller output is a number, the velocity applied to the position
    lies in the closed range from [-clip_val] to [+clip_val], so its magnitude
    is at most [clip_val], whatever the raw output and the gains are; this
    holds for the clip value 0.1 of the script and for any other that is not
    negative.  The velocity bounded here is the one the tick adds, times the
    sample period, to the coordinate. *)
Theorem saturation_bound (el : Elapsed) (c : CameraController) (a : Axis) :
  (0 <=? clip_val c) = true ->
  is_nan (component a (raw_velocity el c)) = false ->
  let v := component a (applied_velocity el c) in
  Py.in_range (- clip_val c) (clip_val c) v = true /\
  (abs v <=? clip_val c) = true /\
  (clip_val c <? abs v) = false /\
  coordinate a (position (update_position el c)) =
  coordinate a (position c) + v * sample_time (axis_pid a c).
Proof.
  intros Hclip Hraw v. subst v.
  rewrite update_position_coordinate, applied_velocity_component.
  destruct (saturate_in_range _ _ Hclip Hraw) as [Hlo Hhi].
  pose proof (abs_leb _ _ Hlo Hhi) as Habs.
  unfold Py.in_range. rewrite Hlo, Hhi, Habs, (leb_ltb_false _ _ Habs).
  repeat split; reflexivity.
Qed.

Lemma saturation_bound_witness :
  let c := set_new_goal CameraController_init (mkPoint 100.0 0.0 0.0) in
  let v := component AxisX (applied_velocity full_period c) in
  Py.in_range (- clip_val c) (clip_val c) v = true /\
  (abs v <=? clip_val c) = true /\
  (clip_val c <? abs v) = false /\
  coordinate AxisX (position (update_position full_period c)) =
  coordinate AxisX (position c) + v * sample_time (axis_pid AxisX c).
Proof.
  apply (saturation_bound full_period
           (set_new_goal CameraController_init (mkPoint 100.0 0.0 0.0)) AxisX);
    vm_compute; reflexivity.
Defined.

(** C1, the claim as it is written, fails when the raw output is not a
    number: a detection with a NaN coordinate makes the setpoint, the error
    and the raw output NaN, both comparisons of the saturation are false, and
    NaN is applied: it is not in the range, its magnitude is not at most
    [clip_val], and the position becomes NaN. *)
Lemma saturation_nan_counterexample :
  let c := set_new_goal CameraController_init (mkPoint nan 0.0 0.0) in
  let v := component AxisX (applied_velocity full_period c) in
  clip_val c = 0.1 /\
  is_nan v = true /\
  Py.in_range (- clip_val c) (clip_val c) v = false /\
  (abs v <=? clip_val c) = false /\
  is_nan (x (position (update_position full_period c))) = true.
Proof. vm_compute. repeat split; reflexivity. Qed.

(** C4 (as amended).  One call of [update_position] sets every coordinate,
    from the data of its own axis only, to the coordinate plus the saturated
    controller output times the sample period.  Besides the position it
    changes the memory of the three axis controllers, and that only as the
    call of each controller changes it: their gains, setpoints and sample
    period, and the clip value, are left as they were. *)
Theorem update_position_step (el : Elapsed) (c : CameraController) (a : Axis) :
  let call :=
    pid_call (axis_elapsed a el) (axis_pid a c) (coordinate a (position c)) in
  let c' := update_position el c in
  coordinate a (position c') =
    coordinate a (position c)
    + saturate (clip_val c) (snd call) * sample_time (axis_pid a c) /\
  saturate (clip_val c) (snd call) =
    Py.max (Py.min (snd call) (clip_val c)) (- clip_val c) /\
  axis_pid a c' = fst call /\
  Kp (axis_pid a c') = Kp (axis_pid a c) /\
  Ki (axis_pid a c') = Ki (axis_pid a c) /\
  Kd (axis_pid a c') = Kd (axis_pid a c) /\
  setpoint (axis_pid a c') = setpoint (axis_pid a c) /\
  sample_time (axis_pid a c') = sample_time (axis_pid a c) /\
  clip_val c' = clip_val c.
Proof.
  intros call c'. subst call c'.
  assert (axis_pid a (update_position el c) =
          fst (pid_call (axis_elapsed a el) (axis_pid a c)
                 (coordinate a (position c)))) as Hpid
    by (rewrite update_position_unfold; destruct a; reflexivity).
  rewrite update_position_coordinate, applied_velocity_component,
    raw_velocity_component, Hpid.
  destruct (pid_call_config (axis_elapsed a el) (axis_pid a c)
              (coordinate a (position c))) as (? & ? & ? & ? & ?).
  repeat split; try assumption.
  rewrite update_position_unfold. reflexivity.
Qed.

(** C4, the claim as it is written, fails on "changing nothing else": the
    first tick after a goal is set leaves every axis controller with a
    previous error and a last output it did not have before. *)
Lemma update_position_changes_pid_memory :
  let c := set_new_goal CameraController_init (mkPoint 1.0 0.0 0.0) in
  let c' := update_position full_period c in
  previous_error (pid_x c) = None /\
  previous_error (pid_x c') = Some 1.0 /\
  last_output (pid_x c) = None /\
  last_output (pid_x c') = Some 0.01 /\
  pid_x c' <> pid_x c.
Proof.
  vm_compute. repeat split; try reflexivity. discriminate.
Qed.

(** C7.  From the controller [__init__] builds (position (0,0,0), Kp = 0.01,
    sample period 0.0333, clip value 0.1) with the setpoint (1,0,0), the first
    tick has the x output min(0.01 * 1, 0.1) = 0.01 and leaves the x
    coordinate at 0.01 * 0.0333, which is the binary64 number written
    0.000333; the clock readings of the tick do not matter. *)
Theorem first_tick_integration (el : Elapsed) :
  let c := set_new_goal CameraController_init (mkPoint 1.0 0.0 0.0) in
  position c = mkPoint 0.0 0.0 0.0 /\
  (setpoint (pid_x c), setpoint (pid_y c), setpoint (pid_z c)) = (1.0, 0.0, 0.0) /\
  Kp (pid_x c) = 0.01 /\ sample_time (pid_x c) = 0.0333 /\ clip_val c = 0.1 /\
  component AxisX (raw_velocity el c) = 0.01 * 1.0 /\
  component AxisX (applied_velocity el c) = Py.min (0.01 * 1.0) 0.1 /\
  component AxisX (applied_velocity el c) = 0.01 /\
  x (position (update_position el c)) = 0.01 * 0.0333 /\
  x (position (update_position el c)) = 0.000333.
Proof.
  destruct el as [ex ey ez]. vm_compute. repeat split; reflexivity.
Qed.

(** C6.  [set_new_goal] sets the setpoint of every axis to the coordinate of
    the target and changes nothing else: the position and the clip value are
    the same, and every axis controller keeps its gains, its sample period,
    its accumulated integral, its previous error and its last output.  The
    next evaluation therefore adds to the integral accumulated before the
    retarget, and differentiates against the error of before the retarget;
    a second retarget does not reset them either. *)
Theorem set_new_goal_frame (c : CameraController) (target other : Point)
  (a : Axis) (measurement : float) :
  let c' := set_new_goal c target in
  setpoint (axis_pid a c') = coordinate a target /\
  position c' = position c /\
  clip_val c' = clip_val c /\
  integral (axis_pid a c') = integral (axis_pid a c) /\
  previous_error (axis_pid a c') = previous_error (axis_pid a c) /\
  last_output (axis_pid a c') = last_output (axis_pid a c) /\
  (Kp (axis_pid a c'), Ki (axis_pid a c'), Kd (axis_pid a c'),
   sample_time (axis_pid a c'))
  = (Kp (axis_pid a c), Ki (axis_pid a c), Kd (axis_pid a c),
     sample_time (axis_pid a c)) /\
  integral (fst (pid_evaluate (axis_pid a c') measurement)) =
    integral (axis_pid a c)
    + (coordinate a target - measurement) * sample_time (axis_pid a c) /\
  integral (axis_pid a (set_new_goal c' other)) = integral (axis_pid a c) /\
  previous_error (axis_pid a (set_new_goal c' other))
  = previous_error (axis_pid a c).
Proof.
  destruct a; simpl; repeat split; reflexivity.
Qed.

(** ** Claims on the control loop *)

Lemma below_threshold_spec (err_x err_y err_z : float) :
  below_threshold (err_x, err_y, err_z) = true <->
  (abs err_x <? ERROR_THRESHOLD) = true /\
  (abs err_y <? ERROR_THRESHOLD) = true /\
  (abs err_z <? Z_THRESHOLD) = true.
Proof.
  unfold below_threshold. rewrite !andb_true_iff. tauto.
Qed.

Lemma control_loop_reports (el : Elapsed) (server_ready : bool)
  (n : ControllerNode) (handle : nat) :
  camera_controller_timer n = Some handle ->
  reports_converged (control_loop el server_ready n) =
  below_threshold (get_position_error (camera_controller n)).
Proof.
  intros Hh. unfold control_loop. rewrite Hh.
  destruct (below_threshold (get_position_error (camera_controller n)));
    reflexivity.
Qed.

(** C2.  A tick reports convergence exactly when |err_x| < ERROR_THRESHOLD
    and |err_y| < ERROR_THRESHOLD and |err_z| < Z_THRESHOLD, where the errors
    are those [get_position_error] returns, ERROR_THRESHOLD is 0.02 and
    Z_THRESHOLD is the larger 0.20.  With err_x = err_y = 0 the tick reports
    convergence at err_z = 0.15 and does not at err_z = 0.25. *)
Theorem convergence_test (el : Elapsed) (server_ready : bool)
  (n : ControllerNode) (handle : nat) :
  camera_controller_timer n = Some handle ->
  (forall err_x err_y err_z,
     get_position_error (camera_controller n) = (err_x, err_y, err_z) ->
     reports_converged (control_loop el server_ready n) =
     (abs err_x <? 0.02) && (abs err_y <? 0.02) && (abs err_z <? 0.20)) /\
  (ERROR_THRESHOLD, Z_THRESHOLD) = (0.02, 0.20) /\
  (ERROR_THRESHOLD <? Z_THRESHOLD) = true /\
  get_position_error (camera_controller (node_with_target (mkPoint 0.0 0.0 0.15)))
  = (0.0, 0.0, 0.15) /\
  reports_converged
    (control_loop el server_ready (node_with_target (mkPoint 0.0 0.0 0.15)))
  = true /\
  get_position_error (camera_controller (node_with_target (mkPoint 0.0 0.0 0.25)))
  = (0.0, 0.0, 0.25) /\
  reports_converged
    (control_loop el server_ready (node_with_target (mkPoint 0.0 0.0 0.25)))
  = false.
Proof.
  intros Hh. split.
  - intros err_x err_y err_z Herr.
    rewrite (control_loop_reports el server_ready n handle Hh), Herr. reflexivity.
  - repeat split; try reflexivity;
      rewrite (control_loop_reports el server_ready _ 0%nat)
        by reflexivity; vm_compute; reflexivity.
Qed.

Lemma convergence_test_witness :
  camera_controller_timer (node_with_target (mkPoint 0.0 0.01 0.19)) = Some 0%nat /\
  reports_converged
    (control_loop full_period true (node_with_target (mkPoint 0.0 0.01 0.19)))
  = (abs 0.0 <? 0.02) && (abs 0.01 <? 0.02) && (abs 0.19 <? 0.20).
Proof.
  split; [reflexivity|].
  apply (convergence_test full_period true
           (node_with_target (mkPoint 0.0 0.01 0.19)) 0%nat);
    vm_compute; reflexivity.
Defined.

(** ** Invariants of the node *)

Lemma cancel_length (handle : nat) (ts : list Timer) :
  List.length (cancel handle ts) = List.length ts.
Proof.
  revert handle. induction ts as [|t ts IH]; intros [|h]; simpl;
    try reflexivity. now rewrite IH.
Qed.

Lemma handle_ok_same_length (n n' : ControllerNode) :
  camera_controller_timer n' = camera_controller_timer n ->
  List.length (timers n') = List.length (timers n) ->
  handle_ok n -> handle_ok n'.
Proof.
  unfold handle_ok. intros -> Hlen.
  destruct (timers n) as [|t ts], (timers n') as [|t' ts'];
    simpl in Hlen; try discriminate; try (intros ->; reflexivity).
  injection Hlen as Hlen. simpl. rewrite Hlen. trivial.
Qed.

Lemma detection_callback_handle_ok (tf : TfLookup) (msg : MarkerArray)
  (n : ControllerNode) :
  handle_ok n -> handle_ok (fst (detection_callback tf msg n)).
Proof.
  intros Hn. unfold detection_callback.
  destruct (markers msg) as [|marker rest]; [exact Hn|].
  destruct tf as [f|e]; [|exact Hn].
  unfold handle_ok. simpl.
  destruct (timers n ++ [_]) as [|t ts] eqn:E.
  - destruct (timers n); discriminate.
  - rewrite <- E, length_app. simpl. f_equal. lia.
Qed.

Lemma control_loop_handle_ok (el : Elapsed) (server_ready : bool)
  (n n' : ControllerNode) (effects : list Effect) :
  handle_ok n -> control_loop el server_ready n = Ok (n', effects) ->
  handle_ok n'.
Proof.
  intros Hn. unfold control_loop.
  destruct (below_threshold _).
  - destruct (camera_controller_timer n) as [h|] eqn:Eh; [|discriminate].
    intros [= <- _]. apply (handle_ok_same_length n); simpl; auto.
    apply cancel_length.
  - simpl. intros [= <- _]. apply (handle_ok_same_length n); auto.
Qed.

Lemma dispatch_handle_ok (ev : Event) (n n' : ControllerNode)
  (effects : list Effect) :
  handle_ok n -> dispatch ev n = Ok (n', effects) -> handle_ok n'.
Proof.
  intros Hn. destruct ev as [tf msg|h el ready|i ev]; simpl.
  - intros [= E]. pose proof (detection_callback_handle_ok tf msg n Hn) as H.
    destruct (detection_callback tf msg n) as [m effs]. simpl in *.
    injection E as <- _. exact H.
  - destruct (fires h n).
    + apply control_loop_handle_ok, Hn.
    + intros [= <- _]. exact Hn.
  - destruct (nth_error (requests n) i) as [r|].
    + destruct (deliver ev r) as [r' effs]. intros [= <- _].
      apply (handle_ok_same_length n); auto.
    + intros [= <- _]. exact Hn.
Qed.

(** Whatever holds at the start and is kept by every callback holds after
    every run. *)
Lemma run_invariant (P : ControllerNode -> Prop) :
  (forall ev n n' effects, P n -> dispatch ev n = Ok (n', effects) -> P n') ->
  forall evs n n' effects, P n -> run evs n = Ok (n', effects) -> P n'.
Proof.
  intros Hstep. induction evs as [|ev evs IH]; simpl; intros n n' effects Hn.
  - intros [= <- _]. exact Hn.
  - destruct (dispatch ev n) as [[n1 effs1]|e] eqn:E1; [|discriminate].
    destruct (run evs n1) as [[n2 effs2]|e] eqn:E2; [|discriminate].
    intros [= <- _]. eapply IH; [|exact E2]. eapply Hstep; eauto.
Qed.

Lemma reachable_handle_ok (n : ControllerNode) : reachable n -> handle_ok n.
Proof.
  intros (evs & effects & Hrun).
  apply (run_invariant handle_ok dispatch_handle_ok evs _ _ _
           (eq_refl : handle_ok ControllerNode_init) Hrun).
Qed.

(** A tick runs only when some timer exists, and then the attribute holds a
    handle: [control_loop] never finds [None] there. *)
Lemma fires_handle (n : ControllerNode) (handle : nat) :
  handle_ok n -> fires handle n = true ->
  exists latest, camera_controller_timer n = Some latest.
Proof.
  unfold handle_ok, fires. intros Hn Hf.
  destruct (timers n) as [|t ts].
  - destruct handle; discriminate.
  - eauto.
Qed.

Lemma handle_ok_latest (n : ControllerNode) (k : nat) :
  handle_ok n -> camera_controller_timer n = Some k ->
  S k = List.length (timers n).
Proof.
  unfold handle_ok. destruct (timers n) as [|t ts]; intros -> [= <-].
  simpl. lia.
Qed.

Lemma nth_error_cancel (k h : nat) (ts : list Timer) :
  nth_error (cancel k ts) h =
  if Nat.eqb k h
  then option_map (fun t => mkTimer (timer_period t) true) (nth_error ts h)
  else nth_error ts h.
Proof.
  revert k h. induction ts as [|t ts IH]; intros [|k] [|h]; simpl;
    try reflexivity.
  - destruct (Nat.eqb _ _); reflexivity.
  - apply IH.
Qed.

Lemma fires_cancel (k h : nat) (n n' : ControllerNode) :
  timers n' = cancel k (timers n) ->
  fires h n' = if Nat.eqb k h then false else fires h n.
Proof.
  intros E. unfold fires. rewrite E, nth_error_cancel.
  destruct (Nat.eqb k h); [|reflexivity].
  destruct (nth_error (timers n) h); reflexivity.
Qed.

(** What a converged tick of a live timer does, in every state the node can
    reach: it calls [cancel] once, on the timer the node holds in
    [camera_controller_timer], which is the one created last and which does
    not fire afterwards; it leaves every other timer as it is, also the one
    that ticked when that is an older one; and it updates, publishes and
    sends nothing. *)
Lemma converged_tick_cancels_held (n : ControllerNode) (handle : nat)
  (el : Elapsed) (server_ready : bool) :
  reachable n -> fires handle n = true ->
  below_threshold (get_position_error (camera_controller n)) = true ->
  exists latest n' effects,
    camera_controller_timer n = Some latest /\
    S latest = List.length (timers n) /\
    dispatch (Tick handle el server_ready) n = Ok (n', effects) /\
    effects = [CancelTimer latest; LogInfo MsgReached] /\
    fires latest n' = false /\
    (forall h, h <> latest -> fires h n' = fires h n) /\
    fires handle n' = negb (Nat.eqb latest handle) /\
    camera_controller n' = camera_controller n /\
    requests n' = requests n.
Proof.
  intros Hreach Hfires Hconv.
  pose proof (reachable_handle_ok n Hreach) as Hok.
  destruct (fires_handle n handle Hok Hfires) as [latest Hlatest].
  exists latest. simpl. unfold control_loop. rewrite Hfires, Hconv, Hlatest.
  do 2 eexists. split; [reflexivity|].
  split; [exact (handle_ok_latest n latest Hok Hlatest)|].
  split; [reflexivity|]. split; [reflexivity|].
  assert (forall h,
            fires h (mkNode (camera_controller n) (Some latest)
                            (cancel latest (timers n)) (requests n))
            = if Nat.eqb latest h then false else fires h n) as Hc
    by (intros h; apply fires_cancel; reflexivity).
  split; [rewrite Hc, Nat.eqb_refl; reflexivity|].
  split.
  - intros h Hh. rewrite Hc. destruct (Nat.eqb_spec latest h); congruence.
  - split; [|split; reflexivity].
    rewrite Hc, Hfires. destruct (Nat.eqb latest handle); reflexivity.
Qed.

(** C3 does not hold of the code.  After a second detection has created a
    second timer, a converged tick of the first timer calls [cancel] on the
    second one, the only one the node still holds: the timer that ticked is
    not cancelled and fires again, and at its next tick the one call to
    [cancel] falls on a timer that is cancelled already, so that no timer is
    stopped at all.  What the tick does not do (update the position, publish,
    send a goal, change the controller) is as the claim says. *)
Theorem converged_tick_misses_own_timer :
  let first := Detection tf_identity (one_marker (mkPoint 1.0 0.0 0.0)) in
  let second := Detection tf_identity (one_marker (mkPoint 0.0 0.0 0.1)) in
  exists n2 n3 n4 effects2 effects3 effects4,
    run [first; second] ControllerNode_init = Ok (n2, effects2) /\
    reachable n2 /\
    below_threshold (get_position_error (camera_controller n2)) = true /\
    fires 0 n2 = true /\ fires 1 n2 = true /\
    dispatch (Tick 0 full_period true) n2 = Ok (n3, effects3) /\
    effects3 = [CancelTimer 1; LogInfo MsgReached] /\
    fires 1 n3 = false /\
    fires 0 n3 = true /\
    camera_controller n3 = camera_controller n2 /\
    dispatch (Tick 0 full_period true) n3 = Ok (n4, effects4) /\
    effects4 = [CancelTimer 1; LogInfo MsgReached] /\
    count is_cancel effects4 = 1%nat /\
    n4 = n3 /\
    List.length (active_timers n4) = List.length (active_timers n3) /\
    fires 0 n4 = true.
Proof.
  intros first second.
  destruct (run [first; second] ControllerNode_init)
    as [[n2 effects2]|e] eqn:E2; [|vm_compute in E2; discriminate].
  assert (reachable n2) as Hreach by (exists [first; second], effects2; exact E2).
  destruct (dispatch (Tick 0 full_period true) n2)
    as [[n3 effects3]|e] eqn:E3;
    [|vm_compute in E2; injection E2 as <- _; vm_compute in E3; discriminate].
  destruct (dispatch (Tick 0 full_period true) n3)
    as [[n4 effects4]|e] eqn:E4;
    [|vm_compute in E2; injection E2 as <- _;
      vm_compute in E3; injection E3 as <- _;
      vm_compute in E4; discriminate].
  exists n2, n3, n4, effects2, effects3, effects4.
  vm_compute in E2. injection E2 as <- <-.
  vm_compute in E3. injection E3 as <- <-.
  vm_compute in E4. injection E4 as <- <-.
  repeat split; try reflexivity. exact Hreach.
Qed.

(** Every detection whose transform is found creates one more live timer,
    whatever timers are already running. *)
Lemma detection_creates_timer (f : Point -> Point) (marker : Marker)
  (rest : list Marker) (n : ControllerNode) :
  let n' := fst (detection_callback (TfFound f)
                   (mkMarkerArray (marker :: rest)) n) in
  List.length (active_timers n') = S (List.length (active_timers n)) /\
  timers n' = timers n ++ [mkTimer (sample_time (pid_x (camera_controller n))) false].
Proof.
  simpl. unfold active_timers. simpl.
  rewrite filter_app, length_app. simpl. split; [lia | reflexivity].
Qed.

(** C5 does not hold of the code.  A second target that arrives while the
    loop of the first is running (its error is not below the thresholds)
    creates a second timer: the node is then in a reachable state with two
    live timers, both of which tick the one controller.  The handle of the
    first timer is overwritten, so a converged tick cancels the second timer
    only, and the first keeps firing afterwards. *)
Theorem second_detection_second_timer :
  let first := Detection tf_identity (one_marker (mkPoint 1.0 0.0 0.0)) in
  let second := Detection tf_identity (one_marker (mkPoint 0.0 0.0 0.1)) in
  exists n1 n2 n3 effects1 effects2 effects3,
    run [first] ControllerNode_init = Ok (n1, effects1) /\
    List.length (active_timers n1) = 1%nat /\
    below_threshold (get_position_error (camera_controller n1)) = false /\
    run [first; second] ControllerNode_init = Ok (n2, effects2) /\
    reachable n2 /\
    count is_create_timer effects2 = 2%nat /\
    List.length (active_timers n2) = 2%nat /\
    fires 0 n2 = true /\ fires 1 n2 = true /\
    camera_controller_timer n2 = Some 1%nat /\
    run [first; second; Tick 0 full_period true] ControllerNode_init
    = Ok (n3, effects3) /\
    count is_cancel effects3 = 1%nat /\
    In (CancelTimer 1) effects3 /\
    fires 0 n3 = true /\ fires 1 n3 = false.
Proof.
  intros first second.
  destruct (run [first; second; Tick 0 full_period true] ControllerNode_init)
    as [[n3 effects3]|e] eqn:E3; [|vm_compute in E3; discriminate].
  destruct (run [first; second] ControllerNode_init)
    as [[n2 effects2]|e] eqn:E2; [|vm_compute in E2; discriminate].
  destruct (run [first] ControllerNode_init)
    as [[n1 effects1]|e] eqn:E1; [|vm_compute in E1; discriminate].
  exists n1, n2, n3, effects1, effects2, effects3.
  assert (reachable n2) as Hreach by (exists [first; second], effects2; exact E2).
  vm_compute in E1, E2, E3.
  injection E1 as <- <-. injection E2 as <- <-. injection E3 as <- <-.
  repeat split; try reflexivity; try exact Hreach.
  vm_compute. tauto.
Qed.

(** ** Claims on the goal dispatch *)

(** C8.  Every call of [send_goal] sends one goal request, which carries the
    position (x, y, z) it was given and the orientation (0, 0, 0, 1).  The
    wait for the server comes first and its outcome changes nothing: the
    request is sent, and the response callback registered, also when the wait
    timed out. *)
Theorem send_goal_always_sends (server_ready : bool) (gx gy gz : float)
  (n : ControllerNode) :
  let goal := mkGoal (mkPose (mkPoint gx gy gz) (mkQuaternion 0.0 0.0 0.0 1.0)) in
  let n' := fst (send_goal server_ready gx gy gz n) in
  let effects := snd (send_goal server_ready gx gy gz n) in
  effects = [PrintOut "Waiting for server"; WaitForServer 1.0;
             PrintOut "Sending goal"; SendGoalAsync goal;
             AddDoneCallback goal_response_cb] /\
  count is_send effects = 1%nat /\
  In (SendGoalAsync goal) effects /\
  send_goal false gx gy gz n = send_goal true gx gy gz n /\
  requests n' = requests n ++ [mkRequest goal Pending (Some goal_response_cb)] /\
  camera_controller n' = camera_controller n /\
  timers n' = timers n.
Proof.
  simpl. repeat split; try reflexivity. right; right; right; left. reflexivity.
Qed.

Lemma deliver_request_ok (ev : ServerEvent) (r : Request) :
  request_ok r -> request_ok (fst (deliver ev r)).
Proof.
  unfold deliver. intros Hr.
  destruct (req_callback r) as [[|]|], ev as [accepted|success];
    try exact Hr.
  - destruct accepted; reflexivity.
  - destruct success; reflexivity.
Qed.




Lemma Forall_replace_nth {A : Type} (P : A -> Prop) (i : nat) (a : A)
  (l : list A) :
  P a -> Forall P l -> Forall P (replace_nth i a l).
Proof.
  intros Ha Hl. revert i. induction Hl as [|b l Hb Hl IH]; intros [|i]; simpl;
    constructor; auto.
Qed.

Lemma dispatch_requests_ok (ev : Event) (n n' : ControllerNode)
  (effects : list Effect) :
  Forall request_ok (requests n) -> dispatch ev n = Ok (n', effects) ->
  Forall request_ok (requests n').
Proof.
  intros Hn. destruct ev as [tf msg|h el ready|i ev]; simpl.
  - unfold detection_callback. destruct (markers msg); [|destruct tf];
      intros [= <- _]; exact Hn.
  - destruct (fires h n); [|intros [= <- _]; exact Hn].
    unfold control_loop. destruct (below_threshold _).
    + destruct (camera_controller_timer n); [|discriminate].
      intros [= <- _]. exact Hn.
    + simpl. intros [= <- _]. simpl. apply Forall_app. split; [exact Hn|].
      constructor; [reflexivity|constructor].
  - destruct (nth_error (requests n) i) as [r|] eqn:E;
      [|intros [= <- _]; exact Hn].
    pose proof (deliver_request_ok ev r) as Hd.
    destruct (deliver ev r) as [r' effs]. intros [= <- _]. simpl.
    apply Forall_replace_nth; [|exact Hn]. apply Hd.
    apply nth_error_In in E. rewrite Forall_forall in Hn. auto.
Qed.

Lemma reachable_requests_ok (n : ControllerNode) :
  reachable n -> Forall request_ok (requests n).
Proof.
  intros (evs & effects & Hrun).
  apply (run_invariant (fun m => Forall request_ok (requests m))
           dispatch_requests_ok evs ControllerNode_init n effects
           (Forall_nil request_ok) Hrun).
Qed.



(** C10.  A detection message without markers leaves the whole node as it
    is and makes no call at all: no transform lookup, no setpoint changed,
    no timer created, whatever the lookup would have returned. *)
Theorem empty_detection_no_effect (tf : TfLookup) (msg : MarkerArray)
  (n : ControllerNode) :
  markers msg = [] ->
  detection_callback tf msg n = (n, []) /\
  dispatch (Detection tf msg) n = Ok (n, []) /\
  count is_lookup (snd (detection_callback tf msg n)) = 0%nat /\
  count is_create_timer (snd (detection_callback tf msg n)) = 0%nat.
Proof.
  intros Hm. simpl. unfold detection_callback. rewrite Hm.
  repeat split.
Qed.

Lemma empty_detection_no_effect_witness :
  markers (mkMarkerArray []) = [] /\
  detection_callback tf_identity (mkMarkerArray [])
    (node_with_target (mkPoint 1.0 0.0 0.0))
  = (node_with_target (mkPoint 1.0 0.0 0.0), []).
Proof.
  split; [reflexivity|].
  apply (empty_detection_no_effect tf_identity (mkMarkerArray [])
           (node_with_target (mkPoint 1.0 0.0 0.0))).
  reflexivity.
Defined.


(** * Further properties of the script *)

(** ** More on binary64 numbers *)

Lemma abs_abs (v : float) : abs (abs v) = abs v.
Proof.
  apply Prim2SF_inj. rewrite !FloatAxioms.abs_spec.
  destruct (Prim2SF v); reflexivity.
Qed.

Lemma abs_not_negative (v : float) : (abs v <? 0) = false.
Proof.
  rewrite FloatAxioms.ltb_spec, FloatAxioms.abs_spec. unfold SFltb.
  change (Prim2SF 0) with (S754_zero false).
  destruct (Prim2SF v); reflexivity.
Qed.

Lemma is_finite_spec (v : float) :
  is_finite v = true ->
  exists s, Prim2SF v = S754_zero s \/ exists m e, Prim2SF v = S754_finite s m e.
Proof.
  unfold is_finite, is_infinity, is_nan.
  rewrite !FloatAxioms.eqb_spec, FloatAxioms.abs_spec. unfold SFeqb.
  change (Prim2SF infinity) with (S754_infinity false).
  destruct (Prim2SF v) as [s|s| |s m e]; simpl;
    try discriminate; try (destruct s; discriminate); intros _.
  - exists s. left. reflexivity.
  - exists s. right. exists m, e. reflexivity.
Qed.

Lemma sub_diag (v : float) : is_finite v = true -> v - v = 0.
Proof.
  intros Hv. apply Prim2SF_inj. rewrite FloatAxioms.sub_spec.
  change (Prim2SF 0) with (S754_zero false).
  destruct (is_finite_spec v Hv) as [s [-> | (m & e & ->)]].
  - destruct s; reflexivity.
  - unfold SF64sub, SFsub. rewrite Z.sub_diag. reflexivity.
Qed.

Lemma ltb_below_not_above (c v : float) :
  (0 <=? c) = true -> (v <? - c) = true -> (c <? v) = false.
Proof.
  rewrite FloatAxioms.leb_spec, !FloatAxioms.ltb_spec, FloatAxioms.opp_spec.
  unfold SFleb, SFltb. change (Prim2SF 0) with (S754_zero false).
  destruct (Prim2SF c) as [sc|sc| |sc mc ec], (Prim2SF v) as [sv|sv| |sv mv ev];
    simpl; try discriminate; try reflexivity;
    destruct sc; simpl; try discriminate; try reflexivity;
    destruct sv; simpl; try discriminate; reflexivity.
Qed.

(** ** The saturation, case by case *)

Lemma saturate_within (clip v : float) :
  (- clip <=? v) = true -> (v <=? clip) = true -> saturate clip v = v.
Proof.
  intros Hlo Hhi. unfold saturate, Py.max, Py.min.
  rewrite (leb_ltb_false _ _ Hhi), (leb_ltb_false _ _ Hlo). reflexivity.
Qed.

Lemma saturate_above (clip v : float) :
  (0 <=? clip) = true -> (clip <? v) = true -> saturate clip v = clip.
Proof.
  intros Hc Hv. unfold saturate, Py.max, Py.min.
  rewrite Hv, (leb_ltb_false _ _ (opp_leb_self _ Hc)). reflexivity.
Qed.

Lemma saturate_below (clip v : float) :
  (0 <=? clip) = true -> (v <? - clip) = true -> saturate clip v = - clip.
Proof.
  intros Hc Hv. unfold saturate, Py.max, Py.min.
  rewrite (ltb_below_not_above _ _ Hc Hv), Hv. reflexivity.
Qed.

(** ** The camera controller *)

(** X1.  A raw controller output that already lies between [-clip_val] and
    [+clip_val] is applied as it is: the tick adds exactly the raw output
    times the sample period to the coordinate. *)
Theorem output_in_range_unchanged (el : Elapsed) (c : CameraController)
  (a : Axis) :
  Py.in_range (- clip_val c) (clip_val c) (component a (raw_velocity el c))
  = true ->
  component a (applied_velocity el c) = component a (raw_velocity el c) /\
  coordinate a (position (update_position el c)) =
  coordinate a (position c)
  + component a (raw_velocity el c) * sample_time (axis_pid a c).
Proof.
  unfold Py.in_range. rewrite andb_true_iff. intros [Hlo Hhi].
  rewrite update_position_coordinate, applied_velocity_component,
    (saturate_within _ _ Hlo Hhi).
  split; reflexivity.
Qed.

Lemma output_in_range_unchanged_witness :
  let c := set_new_goal CameraController_init (mkPoint 1.0 0.0 0.0) in
  component AxisX (applied_velocity full_period c)
  = component AxisX (raw_velocity full_period c) /\
  coordinate AxisX (position (update_position full_period c)) =
  coordinate AxisX (position c)
  + component AxisX (raw_velocity full_period c) * sample_time (axis_pid AxisX c).
Proof.
  apply (output_in_range_unchanged full_period
           (set_new_goal CameraController_init (mkPoint 1.0 0.0 0.0)) AxisX).
  vm_compute. reflexivity.
Defined.

(** X2.  A raw controller output above [clip_val] is applied as [clip_val]
    exactly (the clip value not being negative): the coordinate moves by
    [clip_val] times the sample period, whatever the size of the output. *)
Theorem output_above_clip (el : Elapsed) (c : CameraController) (a : Axis) :
  (0 <=? clip_val c) = true ->
  (clip_val c <? component a (raw_velocity el c)) = true ->
  component a (applied_velocity el c) = clip_val c /\
  coordinate a (position (update_position el c)) =
  coordinate a (position c) + clip_val c * sample_time (axis_pid a c).
Proof.
  intros Hc Hv.
  rewrite update_position_coordinate, applied_velocity_component,
    (saturate_above _ _ Hc Hv).
  split; reflexivity.
Qed.

Lemma output_above_clip_witness :
  let c := set_new_goal CameraController_init (mkPoint 100.0 0.0 0.0) in
  component AxisX (raw_velocity full_period c) = 1.0 /\
  component AxisX (applied_velocity full_period c) = clip_val c /\
  coordinate AxisX (position (update_position full_period c)) =
  coordinate AxisX (position c) + clip_val c * sample_time (axis_pid AxisX c).
Proof.
  split; [vm_compute; reflexivity|].
  apply (output_above_clip full_period
           (set_new_goal CameraController_init (mkPoint 100.0 0.0 0.0)) AxisX);
    vm_compute; reflexivity.
Defined.

(** X3.  A raw controller output below [-clip_val] is applied as [-clip_val]
    exactly (the clip value not being negative). *)
Theorem output_below_clip (el : Elapsed) (c : CameraController) (a : Axis) :
  (0 <=? clip_val c) = true ->
  (component a (raw_velocity el c) <? - clip_val c) = true ->
  component a (applied_velocity el c) = - clip_val c /\
  coordinate a (position (update_position el c)) =
  coordinate a (position c) + - clip_val c * sample_time (axis_pid a c).
Proof.
  intros Hc Hv.
  rewrite update_position_coordinate, applied_velocity_component,
    (saturate_below _ _ Hc Hv).
  split; reflexivity.
Qed.

Lemma output_below_clip_witness :
  let c := set_new_goal CameraController_init (mkPoint (-100.0) 0.0 0.0) in
  component AxisX (raw_velocity full_period c) = -1.0 /\
  component AxisX (applied_velocity full_period c) = - clip_val c /\
  coordinate AxisX (position (update_position full_period c)) =
  coordinate AxisX (position c) + - clip_val c * sample_time (axis_pid AxisX c).
Proof.
  split; [vm_compute; reflexivity|].
  apply (output_below_clip full_period
           (set_new_goal CameraController_init (mkPoint (-100.0) 0.0 0.0)) AxisX);
    vm_compute; reflexivity.
Defined.

(** X4.  The errors [get_position_error] returns are never negative, so the
    second [abs] that [control_loop] applies to them (line 126) changes
    nothing: the convergence test compares the returned errors themselves
    with the thresholds. *)
Theorem error_abs_redundant (c : CameraController) (a : Axis) :
  let err := component a (get_position_error c) in
  (err <? 0) = false /\
  abs err = err /\
  below_threshold (get_position_error c) =
  (component AxisX (get_position_error c) <? ERROR_THRESHOLD)
  && (component AxisY (get_position_error c) <? ERROR_THRESHOLD)
  && (component AxisZ (get_position_error c) <? Z_THRESHOLD).
Proof.
  unfold get_position_error, below_threshold. simpl.
  rewrite !abs_abs. destruct a; simpl; rewrite abs_abs;
    repeat split; apply abs_not_negative.
Qed.

(** X5.  A target that is the current position, all of whose coordinates are
    finite, has error zero on every axis: the next tick of the control loop
    reports convergence without moving. *)
Theorem target_at_position_converges (c : CameraController) :
  finite_point (position c) = true ->
  get_position_error (set_new_goal c (position c)) = (0, 0, 0) /\
  below_threshold (get_position_error (set_new_goal c (position c))) = true.
Proof.
  unfold finite_point. rewrite !andb_true_iff. intros [[Hx Hy] Hz].
  assert (get_position_error (set_new_goal c (position c)) = (0, 0, 0)) as E.
  { unfold get_position_error. simpl.
    rewrite (sub_diag _ Hx), (sub_diag _ Hy), (sub_diag _ Hz). reflexivity. }
  rewrite E. split; reflexivity.
Qed.

Lemma target_at_position_converges_witness :
  let c := update_position full_period
             (set_new_goal CameraController_init (mkPoint 1.0 2.0 3.0)) in
  finite_point (position c) = true /\
  below_threshold (get_position_error (set_new_goal c (position c))) = true.
Proof.
  split; [vm_compute; reflexivity|].
  apply (target_at_position_converges
           (update_position full_period
              (set_new_goal CameraController_init (mkPoint 1.0 2.0 3.0)))).
  vm_compute. reflexivity.
Defined.

(** ** Runs of the node *)

Lemma count_app (f : Effect -> bool) (l1 l2 : list Effect) :
  count f (l1 ++ l2) = (count f l1 + count f l2)%nat.
Proof. unfold count. rewrite filter_app, length_app. reflexivity. Qed.

(** What a callback can do to the list of timers: nothing, cancel the timer
    the node holds, or add a live timer at the end. *)
Lemma dispatch_timers (ev : Event) (n n' : ControllerNode)
  (effects : list Effect) :
  dispatch ev n = Ok (n', effects) ->
  timers n' = timers n \/
  (exists k, camera_controller_timer n = Some k /\
             timers n' = cancel k (timers n)) \/
  (exists period, timers n' = timers n ++ [mkTimer period false]).
Proof.
  destruct ev as [tf msg|h el ready|i ev]; simpl.
  - unfold detection_callback. destruct (markers msg) as [|marker rest];
      [|destruct tf as [f|e]]; intros [= <- _]; simpl; eauto.
  - destruct (fires h n); [|intros [= <- _]; auto].
    unfold control_loop. destruct (below_threshold _).
    + destruct (camera_controller_timer n) as [k|]; [|discriminate].
      intros [= <- _]. simpl. eauto.
    + simpl. intros [= <- _]. auto.
  - destruct (nth_error (requests n) i) as [r|];
      [destruct (deliver ev r)|]; intros [= <- _]; auto.
Qed.

(** From a state in which the attribute holds the latest handle, no callback
    raises. *)
Lemma dispatch_ok (ev : Event) (n : ControllerNode) :
  handle_ok n -> exists n' effects, dispatch ev n = Ok (n', effects).
Proof.
  intros Hn. destruct ev as [tf msg|h el ready|i ev]; simpl.
  - destruct (detection_callback tf msg n). eauto.
  - destruct (fires h n) eqn:Hf; [|eauto].
    destruct (fires_handle n h Hn Hf) as [k Hk].
    unfold control_loop. rewrite Hk.
    destruct (below_threshold _); simpl; eauto.
  - destruct (nth_error (requests n) i) as [r|];
      [destruct (deliver ev r)|]; eauto.
Qed.

Lemma run_ok (evs : list Event) (n : ControllerNode) :
  handle_ok n -> exists n' effects, run evs n = Ok (n', effects).
Proof.
  revert n. induction evs as [|ev evs IH]; simpl; intros n Hn; [eauto|].
  destruct (dispatch_ok ev n Hn) as (n1 & effs1 & E1). rewrite E1.
  destruct (IH n1 (dispatch_handle_ok ev n n1 effs1 Hn E1))
    as (n2 & effs2 & E2).
  rewrite E2. eauto.
Qed.

(** X6.  No sequence of detections, timer ticks and goal completions makes a
    callback of the node raise: in particular [control_loop] never finds
    [camera_controller_timer] still [None] when it cancels, since a tick
    presupposes a timer and every timer is created together with its
    handle. *)
Theorem run_never_raises (evs : list Event) :
  exists n effects,
    run evs ControllerNode_init = Ok (n, effects) /\ reachable n.
Proof.
  destruct (run_ok evs ControllerNode_init eq_refl) as (n & effects & E).
  exists n, effects. split; [exact E|]. exists evs, effects. exact E.
Qed.

Lemma nth_error_app_old {A : Type} (l : list A) (a : A) (h : nat) (b : A) :
  nth_error l h = Some b -> nth_error (l ++ [a]) h = Some b.
Proof.
  intros H. rewrite nth_error_app1; [exact H|].
  apply nth_error_Some. congruence.
Qed.

(** X7.  A timer that was cancelled stays cancelled: nothing the node does
    afterwards makes it fire again, and it is never removed. *)
Theorem cancelled_timer_stays_cancelled (evs : list Event)
  (n n' : ControllerNode) (effects : list Effect) (h : nat) (t : Timer) :
  nth_error (timers n) h = Some t -> is_canceled t = true ->
  run evs n = Ok (n', effects) ->
  nth_error (timers n') h = Some t /\ fires h n' = false.
Proof.
  intros Ht Hc Hrun.
  assert (nth_error (timers n') h = Some t) as H.
  { apply (run_invariant (fun m => nth_error (timers m) h = Some t))
      with (evs := evs) (n := n) (effects := effects); try assumption.
    intros ev m m' effs Hm Hd.
    destruct (dispatch_timers ev m m' effs Hd)
      as [-> | [(k & _ & ->) | (p & ->)]].
    - exact Hm.
    - rewrite nth_error_cancel, Hm. destruct (Nat.eqb k h); [|reflexivity].
      simpl. destruct t as [p c]. simpl in Hc. subst c. reflexivity.
    - apply nth_error_app_old, Hm. }
  split; [exact H|]. unfold fires. rewrite H, Hc. reflexivity.
Qed.

Lemma cancelled_timer_stays_cancelled_witness :
  let target := Detection tf_identity (one_marker (mkPoint 0.0 0.0 0.1)) in
  let n := node_after [target; Tick 0 full_period true] in
  nth_error (timers n) 0 = Some (mkTimer 0.0333 true) /\
  fires 0 (node_after [target; Tick 0 full_period true;
                       Tick 0 full_period true; target]) = false.
Proof.
  intros target n. split; [vm_compute; reflexivity|].
  apply (cancelled_timer_stays_cancelled
           [Tick 0 full_period true; target] n
           (node_after [target; Tick 0 full_period true;
                        Tick 0 full_period true; target])
           [LookupTransform "world" "camera_depth_frame" 1.0;
            LogInfo (MsgReceivedMarker (mkPoint 0.0 0.0 0.1));
            CreateTimer 0.0333 1]
           0 (mkTimer 0.0333 true));
    vm_compute; reflexivity.
Defined.

(** X8.  A timer that is not the one created last is never touched again:
    [control_loop] cancels the timer of the latest detection only, so a timer
    that was live when a newer one was created fires for ever. *)
Theorem superseded_timer_untouched (evs : list Event)
  (n n' : ControllerNode) (effects : list Effect) (h : nat) :
  reachable n -> (S h < List.length (timers n))%nat ->
  run evs n = Ok (n', effects) ->
  nth_error (timers n') h = nth_error (timers n) h /\
  fires h n' = fires h n.
Proof.
  intros Hreach Hh Hrun.
  assert (handle_ok n' /\ (S h < List.length (timers n'))%nat /\
          nth_error (timers n') h = nth_error (timers n) h) as (_ & _ & H).
  { apply (run_invariant
             (fun m => handle_ok m /\ (S h < List.length (timers m))%nat /\
                       nth_error (timers m) h = nth_error (timers n) h))
      with (evs := evs) (n := n) (effects := effects);
      [|auto using reachable_handle_ok|assumption].
    intros ev m m' effs (Hok & Hlen & Hm) Hd.
    split; [exact (dispatch_handle_ok ev m m' effs Hok Hd)|].
    destruct (dispatch_timers ev m m' effs Hd)
      as [-> | [(k & Hk & ->) | (p & ->)]].
    - auto.
    - rewrite cancel_length, nth_error_cancel.
      pose proof (handle_ok_latest m k Hok Hk) as Hlast.
      destruct (Nat.eqb_spec k h); [lia|auto].
    - rewrite length_app. simpl. split; [lia|].
      rewrite nth_error_app1 by lia. exact Hm. }
  split; [exact H|]. unfold fires. rewrite H. reflexivity.
Qed.

Lemma superseded_timer_untouched_witness :
  let first := Detection tf_identity (one_marker (mkPoint 1.0 0.0 0.0)) in
  let second := Detection tf_identity (one_marker (mkPoint 0.0 0.0 0.1)) in
  let n := node_after [first; second] in
  fires 0 n = true /\
  fires 0 (node_after [first; second; Tick 0 full_period true;
                       Tick 1 full_period true]) = fires 0 n.
Proof.
  intros first second n. split; [vm_compute; reflexivity|].
  apply (superseded_timer_untouched
           [Tick 0 full_period true; Tick 1 full_period true] n
           (node_after [first; second; Tick 0 full_period true;
                        Tick 1 full_period true])
           [CancelTimer 1; LogInfo MsgReached] 0).
  - exists [first; second]. eexists. vm_compute. reflexivity.
  - vm_compute. lia.
  - vm_compute. reflexivity.
Defined.

(** X9.  A tick of a live timer whose error does not pass the convergence
    test moves the controller by one [update_position], publishes once the
    three coordinates of the new position, each rounded to float32 as the
    message stores it, and sends one goal for the new position itself (the
    Python floats, not rounded), which is recorded as pending; it cancels
    nothing and leaves the timers and the handle as they were. *)
Theorem running_tick (n : ControllerNode) (handle : nat) (el : Elapsed)
  (server_ready : bool) :
  fires handle n = true ->
  below_threshold (get_position_error (camera_controller n)) = false ->
  exists n' effects,
    dispatch (Tick handle el server_ready) n = Ok (n', effects) /\
    camera_controller n' = update_position el (camera_controller n) /\
    filter is_publish effects =
      [Publish [to_float32 (x (position (camera_controller n')));
                to_float32 (y (position (camera_controller n')));
                to_float32 (z (position (camera_controller n')))]] /\
    filter is_send effects =
      [SendGoalAsync (goal_at (position (camera_controller n')))] /\
    requests n' =
      requests n ++ [mkRequest (goal_at (position (camera_controller n')))
                               Pending (Some goal_response_cb)] /\
    count is_cancel effects = 0%nat /\
    timers n' = timers n /\
    camera_controller_timer n' = camera_controller_timer n.
Proof.
  intros Hf Hb. simpl. unfold control_loop. rewrite Hf, Hb. simpl.
  do 2 eexists. repeat split.
Qed.

Lemma running_tick_witness :
  exists n' effects,
    dispatch (Tick 0 full_period false) (node_with_target (mkPoint 1.0 0.0 0.0))
    = Ok (n', effects) /\
    position (camera_controller n') = mkPoint 0.000333 0.0 0.0 /\
    filter is_publish effects = [Publish [0.0003330000035930425; 0.0; 0.0]] /\
    filter is_send effects
    = [SendGoalAsync (goal_at (mkPoint 0.000333 0.0 0.0))].
Proof.
  destruct (running_tick (node_with_target (mkPoint 1.0 0.0 0.0)) 0
              full_period false)
    as (n' & effects & Hd & Hc & Hp & Hs & _);
    [vm_compute; reflexivity | vm_compute; reflexivity |].
  exists n', effects. split; [exact Hd|].
  rewrite Hp, Hs, Hc. vm_compute. repeat split; reflexivity.
Defined.

Lemma set_new_goal_config (c : CameraController) (target : Point) :
  config_ok c -> config_ok (set_new_goal c target).
Proof.
  intros [Hclip Haxes]. split; [exact Hclip|].
  intros a. specialize (Haxes a). destruct a; exact Haxes.
Qed.

Lemma update_position_config (el : Elapsed) (c : CameraController) :
  config_ok c -> config_ok (update_position el c).
Proof.
  intros [Hclip Haxes]. rewrite update_position_unfold.
  split; [exact Hclip|].
  intros a. specialize (Haxes a).
  destruct a; simpl in *;
    match goal with
    | |- context [fst (pid_call ?e ?p ?m)] =>
      destruct (pid_call_config e p m) as (-> & -> & -> & _ & ->)
    end; exact Haxes.
Qed.

Lemma cancel_periods (k : nat) (ts : list Timer) (period : float) :
  Forall (fun t => timer_period t = period) ts ->
  Forall (fun t => timer_period t = period) (cancel k ts).
Proof.
  intros H. revert k. induction H as [|t ts Ht Hts IH]; intros [|k]; simpl;
    constructor; auto.
Qed.

Lemma dispatch_config (ev : Event) (n n' : ControllerNode)
  (effects : list Effect) :
  config_ok (camera_controller n) /\
  Forall (fun t => timer_period t = 0.0333) (timers n) ->
  dispatch ev n = Ok (n', effects) ->
  config_ok (camera_controller n') /\
  Forall (fun t => timer_period t = 0.0333) (timers n').
Proof.
  intros [Hc Ht]. destruct ev as [tf msg|h el ready|i ev]; simpl.
  - unfold detection_callback. destruct (markers msg) as [|marker rest];
      [|destruct tf as [f|e]]; intros [= <- _]; auto.
    simpl. split; [apply set_new_goal_config, Hc|].
    apply Forall_app. split; [exact Ht|].
    constructor; [|constructor]. simpl.
    destruct Hc as [_ Haxes]. apply (Haxes AxisX).
  - destruct (fires h n); [|intros [= <- _]; auto].
    unfold control_loop. destruct (below_threshold _).
    + destruct (camera_controller_timer n) as [k|]; [|discriminate].
      intros [= <- _]. simpl. auto using cancel_periods.
    + simpl. intros [= <- _]. simpl. auto using update_position_config.
  - destruct (nth_error (requests n) i) as [r|];
      [destruct (deliver ev r)|]; intros [= <- _]; auto.
Qed.

(** X10.  The configuration is fixed for the life of the node: in every
    state it can reach the clip value is 0.1, every axis has sample period
    0.0333 and the gains KP, KI, KD, and every timer the node has created
    has the sample period of the controllers as its period. *)
Theorem configuration_invariant (n : ControllerNode) :
  reachable n ->
  config_ok (camera_controller n) /\
  Forall (fun t => timer_period t = 0.0333) (timers n).
Proof.
  intros (evs & effects & Hrun).
  apply (run_invariant
           (fun m => config_ok (camera_controller m) /\
                     Forall (fun t => timer_period t = 0.0333) (timers m))
           dispatch_config evs ControllerNode_init n effects); [|exact Hrun].
  split; [|constructor].
  split; [reflexivity|]. intros a. destruct a; repeat split.
Qed.

Lemma configuration_invariant_witness :
  config_ok (camera_controller (node_after rejected_run)) /\
  Forall (fun t => timer_period t = 0.0333) (timers (node_after rejected_run)).
Proof.
  apply (configuration_invariant (node_after rejected_run)).
  exists rejected_run. eexists. vm_compute. reflexivity.
Defined.

(** An event that leaves every state as it is can be put anywhere in a run
    without changing the state the run ends in. *)
Lemma run_insert_silent (ev : Event) (evs1 evs2 : list Event)
  (n n' : ControllerNode) (effects : list Effect) :
  (forall m, exists effs, dispatch ev m = Ok (m, effs)) ->
  run (evs1 ++ evs2) n = Ok (n', effects) ->
  exists effects', run (evs1 ++ ev :: evs2) n = Ok (n', effects').
Proof.
  intros Hsilent. revert n effects.
  induction evs1 as [|e evs1 IH]; simpl; intros n effects Hrun.
  - destruct (Hsilent n) as [effs ->]. rewrite Hrun. eauto.
  - destruct (dispatch e n) as [[n1 effs1]|err]; [|discriminate].
    destruct (run (evs1 ++ evs2) n1) as [[n2 effs2]|err] eqn:E;
      [|discriminate].
    injection Hrun as <- <-.
    destruct (IH n1 effs2 E) as [effs' ->]. eauto.
Qed.

(** X11.  A detection whose transform lookup fails, or that carries no
    marker, is discarded wherever it arrives: the run ends in the same state
    as without it (same setpoints, same timers, same goals), so a control
    loop that is running is not disturbed. *)
Theorem discarded_detection_transparent (e : TfError) (tf : TfLookup)
  (msg : MarkerArray) (evs1 evs2 : list Event) (n n' : ControllerNode)
  (effects : list Effect) :
  run (evs1 ++ evs2) n = Ok (n', effects) ->
  (exists effects',
     run (evs1 ++ Detection (TfRaise e) msg :: evs2) n = Ok (n', effects')) /\
  (exists effects',
     run (evs1 ++ Detection tf (mkMarkerArray []) :: evs2) n
     = Ok (n', effects')).
Proof.
  intros Hrun. split.
  - apply (run_insert_silent (Detection (TfRaise e) msg) evs1 evs2 n n'
             effects); [|exact Hrun].
    intros m. simpl. unfold detection_callback.
    destruct (markers msg); simpl; eexists; reflexivity.
  - apply (run_insert_silent (Detection tf (mkMarkerArray [])) evs1 evs2 n n'
             effects); [|exact Hrun].
    intros m. simpl. eexists. reflexivity.
Qed.

Lemma discarded_detection_transparent_witness :
  let first := Detection tf_identity (one_marker (mkPoint 1.0 0.0 0.0)) in
  let lost := Detection (TfRaise LookupException)
                (one_marker (mkPoint 5.0 5.0 5.0)) in
  exists effects',
    run ([first] ++ lost :: [Tick 0 full_period true]) ControllerNode_init
    = Ok (node_after [first; Tick 0 full_period true], effects').
Proof.
  intros first lost.
  destruct (run ([first] ++ [Tick 0 full_period true]) ControllerNode_init)
    as [[n effs]|err] eqn:E; [|vm_compute in E; discriminate].
  assert (node_after [first; Tick 0 full_period true] = n) as ->
    by (unfold node_after; simpl app in E; rewrite E; reflexivity).
  exact (proj1 (discarded_detection_transparent LookupException tf_identity
                  (one_marker (mkPoint 5.0 5.0 5.0))
                  [first] [Tick 0 full_period true]
                  ControllerNode_init n effs E)).
Defined.

(** ** The goals the node has sent *)

Lemma deliver_goal (ev : ServerEvent) (r : Request) :
  req_goal (fst (deliver ev r)) = req_goal r.
Proof.
  unfold deliver. destruct (req_callback r) as [[|]|], ev as [[|]|[|]];
    reflexivity.
Qed.

Lemma deliver_effects (ev : ServerEvent) (r : Request) :
  count is_send (snd (deliver ev r)) = 0%nat /\
  count is_publish (snd (deliver ev r)) = 0%nat /\
  count is_create_timer (snd (deliver ev r)) = 0%nat.
Proof.
  unfold deliver. destruct (req_callback r) as [[|]|], ev as [[|]|[|]];
    repeat split.
Qed.

Lemma map_replace_nth {A B : Type} (f : A -> B) (i : nat) (a b : A)
  (l : list A) :
  nth_error l i = Some b -> f a = f b ->
  map f (replace_nth i a l) = map f l.
Proof.
  revert i. induction l as [|c l IH]; intros [|i]; simpl; try discriminate.
  - intros [= ->] ->. reflexivity.
  - intros Hn Hf. rewrite (IH i Hn Hf). reflexivity.
Qed.

(** What one callback adds to the goals sent, to the timers, and to the
    trace of effects. *)
Lemma dispatch_account (ev : Event) (n n' : ControllerNode)
  (effects : list Effect) :
  dispatch ev n = Ok (n', effects) ->
  (exists more, sent_goals n' = sent_goals n ++ more /\
                List.length more = count is_send effects /\
                Forall (fun g => orientation (pose g) = Quaternion_default)
                       more) /\
  count is_publish effects = count is_send effects /\
  List.length (timers n') =
  (List.length (timers n) + count is_create_timer effects)%nat.
Proof.
  unfold sent_goals. destruct ev as [tf msg|h el ready|i ev]; simpl.
  - unfold detection_callback. destruct (markers msg) as [|marker rest];
      [|destruct tf as [f|e]]; intros [= <- <-]; simpl;
      (split; [exists []; rewrite app_nil_r; auto|]);
      rewrite ?length_app; simpl; split; auto; lia.
  - destruct (fires h n);
      [|intros [= <- <-]; (split; [exists []; rewrite app_nil_r; auto|]);
        simpl; split; auto].
    unfold control_loop. destruct (below_threshold _).
    + destruct (camera_controller_timer n) as [k|]; [|discriminate].
      intros [= <- <-]. simpl.
      (split; [exists []; rewrite app_nil_r; auto|]).
      rewrite cancel_length. split; auto.
    + simpl. intros [= <- <-]. simpl. split; [|split; auto].
      eexists. rewrite map_app. simpl. split; [reflexivity|].
      split; [reflexivity|]. constructor; [reflexivity|constructor].
  - destruct (nth_error (requests n) i) as [r|] eqn:E.
    + pose proof (deliver_goal ev r) as Hg.
      destruct (deliver_effects ev r) as (Hs & Hp & Ht).
      destruct (deliver ev r) as [r' effs]. simpl in *.
      intros [= <- <-]. simpl. rewrite Hs, Hp, Ht.
      rewrite (map_replace_nth req_goal i r' r _ E Hg).
      (split; [exists []; rewrite app_nil_r; auto|]). split; auto.
    + intros [= <- <-].
      (split; [exists []; rewrite app_nil_r; auto|]). simpl. split; auto.
Qed.

(** X12.  Over any run, the goals sent are only ever added to, never
    dropped, reordered or rewritten by a later completion; one goal is added
    for each call of [send_goal_async], each of them with the orientation
    (0, 0, 0, 1); every such call goes with one publication; and the node has
    one more timer for each [create_timer], none being removed. *)
Theorem run_accounting (evs : list Event) (n n' : ControllerNode)
  (effects : list Effect) :
  run evs n = Ok (n', effects) ->
  (exists more, sent_goals n' = sent_goals n ++ more /\
                List.length more = count is_send effects /\
                Forall (fun g => orientation (pose g) = Quaternion_default)
                       more) /\
  count is_publish effects = count is_send effects /\
  List.length (timers n') =
  (List.length (timers n) + count is_create_timer effects)%nat.
Proof.
  revert n n' effects. induction evs as [|ev evs IH]; simpl;
    intros n n' effects.
  - intros [= <- <-]. split; [exists []; rewrite app_nil_r; auto|].
    simpl. split; auto.
  - destruct (dispatch ev n) as [[n1 effs1]|err] eqn:E1; [|discriminate].
    destruct (run evs n1) as [[n2 effs2]|err] eqn:E2; [|discriminate].
    intros [= <- <-].
    destruct (dispatch_account ev n n1 effs1 E1)
      as ((more1 & Hg1 & Hl1 & Ho1) & Hp1 & Ht1).
    destruct (IH n1 n2 effs2 E2) as ((more2 & Hg2 & Hl2 & Ho2) & Hp2 & Ht2).
    rewrite !count_app. split; [|split; lia].
    exists (more1 ++ more2). rewrite Hg2, Hg1, app_assoc, length_app.
    split; [reflexivity|]. split; [lia|]. apply Forall_app. auto.
Qed.

Lemma run_accounting_witness :
  exists more,
    sent_goals (node_after rejected_run)
    = sent_goals ControllerNode_init ++ more /\
    List.length more = 1%nat.
Proof.
  destruct (run rejected_run ControllerNode_init) as [[n effs]|err] eqn:E;
    [|vm_compute in E; discriminate].
  destruct (run_accounting rejected_run ControllerNode_init n effs E)
    as ((more & Hg & Hl & _) & _).
  exists more. unfold node_after. rewrite E. split; [exact Hg|].
  rewrite Hl. vm_compute in E. injection E as _ <-. reflexivity.
Defined.

(** X13.  Once the error passes the convergence test the controller is
    frozen until the next detection: whatever timers tick and whatever
    goals complete, no callback raises, the position and the axis
    controllers stay as they are, nothing is published and no goal is
    sent. *)
Theorem converged_is_frozen (evs : list Event) (n : ControllerNode) :
  reachable n ->
  below_threshold (get_position_error (camera_controller n)) = true ->
  forallb (fun ev => negb (is_detection ev)) evs = true ->
  exists n' effects,
    run evs n = Ok (n', effects) /\
    camera_controller n' = camera_controller n /\
    count is_publish effects = 0%nat /\
    count is_send effects = 0%nat /\
    sent_goals n' = sent_goals n.
Proof.
  intros Hreach. pose proof (reachable_handle_ok n Hreach) as Hok.
  clear Hreach. revert n Hok.
  induction evs as [|ev evs IH]; intros n Hok Hb Hevs; simpl in Hevs |- *.
  - exists n, []. repeat split.
  - apply andb_true_iff in Hevs. destruct Hevs as [Hev Hevs].
    assert (exists n1 effs1,
              dispatch ev n = Ok (n1, effs1) /\
              camera_controller n1 = camera_controller n /\
              count is_send effs1 = 0%nat) as (n1 & effs1 & E1 & Hc1 & Hs1).
    { destruct ev as [tf msg|h el ready|i ev]; [discriminate| |]; simpl.
      - destruct (fires h n) eqn:Hf; [|exists n, []; repeat split].
        destruct (fires_handle n h Hok Hf) as [k Hk].
        unfold control_loop. rewrite Hb, Hk. do 2 eexists. repeat split.
      - destruct (nth_error (requests n) i) as [r|];
          [|exists n, []; repeat split].
        destruct (deliver_effects ev r) as (Hs & _).
        destruct (deliver ev r) as [r' effs]. do 2 eexists.
        split; [reflexivity|]. split; [reflexivity|exact Hs]. }
    rewrite E1.
    destruct (IH n1 (dispatch_handle_ok ev n n1 effs1 Hok E1))
      as (n2 & effs2 & E2 & Hc2 & Hp2 & Hs2 & Hg2); [congruence|exact Hevs|].
    rewrite E2. exists n2, (effs1 ++ effs2).
    destruct (dispatch_account ev n n1 effs1 E1)
      as ((more & Hg1 & Hl1 & _) & Hp1 & _).
    rewrite !count_app. repeat split; try congruence; try lia.
    rewrite Hg2, Hg1. rewrite Hs1 in Hl1. destruct more; [|discriminate].
    apply app_nil_r.
Qed.

Lemma converged_is_frozen_witness :
  exists n' effects,
    run [Tick 0 full_period true; Tick 0 full_period true]
      (node_with_target (mkPoint 0.0 0.01 0.19)) = Ok (n', effects) /\
    camera_controller n'
    = camera_controller (node_with_target (mkPoint 0.0 0.01 0.19)).
Proof.
  destruct (converged_is_frozen
              [Tick 0 full_period true; Tick 0 full_period true]
              (node_with_target (mkPoint 0.0 0.01 0.19)))
    as (n' & effects & Hrun & Hc & _).
  - exists [Detection tf_identity (one_marker (mkPoint 0.0 0.01 0.19))].
    eexists. vm_compute. reflexivity.
  - vm_compute. reflexivity.
  - reflexivity.
  - exists n', effects. split; assumption.
Defined.

Lemma nth_error_replace_nth {A : Type} (i j : nat) (a : A) (l : list A) :
  nth_error (replace_nth i a l) j =
  if Nat.eqb i j then option_map (fun _ => a) (nth_error l j)
  else nth_error l j.
Proof.
  revert i j. induction l as [|b l IH]; intros [|i] [|j]; simpl;
    try reflexivity.
  - destruct (Nat.eqb _ _); reflexivity.
  - apply IH.
Qed.

(** X14.  The completion of a goal never touches the control loop: whether
    the goal is accepted, rejected, succeeds or fails, the camera
    controller, the timers and the handle stay as they are and nothing is
    cancelled, so the loop keeps ticking; and no other goal in flight is
    affected. *)
Theorem completion_frame (i : nat) (ev : ServerEvent) (n : ControllerNode) :
  exists n' effects,
    dispatch (Completion i ev) n = Ok (n', effects) /\
    camera_controller n' = camera_controller n /\
    timers n' = timers n /\
    camera_controller_timer n' = camera_controller_timer n /\
    count is_cancel effects = 0%nat /\
    count is_send effects = 0%nat /\
    forall j, j <> i -> nth_error (requests n') j = nth_error (requests n) j.
Proof.
  simpl. destruct (nth_error (requests n) i) as [r|] eqn:E.
  - assert (count is_cancel (snd (deliver ev r)) = 0%nat) as Hc
      by (unfold deliver; destruct (req_callback r) as [[|]|],
            ev as [[|]|[|]]; reflexivity).
    destruct (deliver_effects ev r) as (Hs & _).
    destruct (deliver ev r) as [r' effs]. do 2 eexists.
    split; [reflexivity|]. simpl. repeat split; try assumption.
    intros j Hj. rewrite nth_error_replace_nth.
    destruct (Nat.eqb_spec i j); [congruence|reflexivity].
  - exists n, []. repeat split.
Qed.

(** X15.  A goal that is pending ends as the two callbacks report it: a
    response and then a result leave it Succeeded when it was accepted and
    the execution succeeded, Failed when it was accepted and the execution
    failed, and Rejected when it was not accepted, whatever result arrives
    afterwards; the result is asked for exactly when the goal was
    accepted. *)
Theorem goal_protocol (n : ControllerNode) (i : nat) (r : Request)
  (accepted success : bool) :
  reachable n ->
  nth_error (requests n) i = Some r -> req_outcome r = Pending ->
  exists n' effects,
    run [Completion i (Response accepted);
         Completion i (ResultReady success)] n = Ok (n', effects) /\
    nth_error (requests n') i =
      Some (mkRequest (req_goal r) (reported_outcome accepted success) None) /\
    count is_get_result effects = (if accepted then 1 else 0)%nat.
Proof.
  intros Hreach Hi Ho.
  assert (request_ok r) as Hr.
  { pose proof (reachable_requests_ok n Hreach) as H.
    rewrite Forall_forall in H. apply H. eapply nth_error_In, Hi. }
  destruct r as [g o cb]. unfold request_ok in Hr. simpl in Ho, Hr.
  subst o cb. simpl. rewrite Hi. unfold deliver. simpl.
  destruct accepted; simpl;
    rewrite nth_error_replace_nth, Nat.eqb_refl, Hi; simpl.
  - destruct success; simpl; do 2 eexists;
      (split; [reflexivity|]); simpl;
      rewrite nth_error_replace_nth, Nat.eqb_refl, nth_error_replace_nth,
        Nat.eqb_refl, Hi; split; reflexivity.
  - do 2 eexists. split; [reflexivity|]. simpl.
    rewrite nth_error_replace_nth, Nat.eqb_refl, nth_error_replace_nth,
      Nat.eqb_refl, Hi. split; reflexivity.
Qed.

Lemma goal_protocol_witness :
  let n := node_after [Detection tf_identity (one_marker (mkPoint 1.0 0.0 0.0));
                       Tick 0 full_period true] in
  let g := goal_at (mkPoint 0.000333 0.0 0.0) in
  nth_error (requests n) 0 = Some (mkRequest g Pending (Some goal_response_cb)) /\
  exists n' effects,
    run [Completion 0 (Response true); Completion 0 (ResultReady false)] n
    = Ok (n', effects) /\
    nth_error (requests n') 0 = Some (mkRequest g Failed None) /\
    count is_get_result effects = 1%nat.
Proof.
  intros n g. split; [vm_compute; reflexivity|].
  apply (goal_protocol n 0 (mkRequest g Pending (Some goal_response_cb))
           true false).
  - exists [Detection tf_identity (one_marker (mkPoint 1.0 0.0 0.0));
            Tick 0 full_period true].
    eexists. vm_compute. reflexivity.
  - vm_compute. reflexivity.
  - reflexivity.
Defined.

(** ** A target that is not a number *)

Lemma is_nan_true (v : float) : is_nan v = true -> Prim2SF v = S754_nan.
Proof.
  intros Hv. destruct (Prim2SF v) eqn:E; try reflexivity;
    assert (is_nan v = false)
      by (apply is_nan_spec; rewrite E; discriminate); congruence.
Qed.

Lemma is_nan_of_spec (v : float) : Prim2SF v = S754_nan -> is_nan v = true.
Proof.
  intros E. destruct (is_nan v) eqn:Hv; [reflexivity|].
  apply is_nan_spec in Hv. contradiction.
Qed.

Lemma abs_sub_nan (a b : float) :
  is_nan b = true -> is_nan (abs (abs (a - b))) = true.
Proof.
  intros Hb. apply is_nan_of_spec.
  rewrite !FloatAxioms.abs_spec, FloatAxioms.sub_spec, (is_nan_true b Hb).
  destruct (Prim2SF a); reflexivity.
Qed.

Lemma ticks_setpoint (a : Axis) (els : list Elapsed) (c : CameraController) :
  setpoint (axis_pid a (ticks els c)) = setpoint (axis_pid a c).
Proof.
  unfold ticks. revert c. induction els as [|el els IH]; simpl; intros c;
    [reflexivity|].
  rewrite IH, update_position_unfold.
  destruct a; simpl;
    match goal with
    | |- context [fst (pid_call ?e ?p ?m)] =>
      destruct (pid_call_config e p m) as (_ & _ & _ & -> & _)
    end; reflexivity.
Qed.

(** X16.  A target with a coordinate that is not a number never converges:
    the error on that axis is NaN, every comparison with a threshold is
    false, and this stays so after any number of position updates, so the
    control loop never cancels its timer by itself. *)
Theorem nan_target_never_converges (c : CameraController) (target : Point)
  (a : Axis) (els : list Elapsed) :
  is_nan (coordinate a target) = true ->
  below_threshold (get_position_error (ticks els (set_new_goal c target)))
  = false.
Proof.
  intros Hnan.
  pose proof (ticks_setpoint a els (set_new_goal c target)) as Hs.
  assert (setpoint (axis_pid a (set_new_goal c target)) = coordinate a target)
    as E by (destruct a; reflexivity).
  rewrite E in Hs. clear E. rewrite <- Hs in Hnan. clear Hs.
  unfold below_threshold, get_position_error.
  destruct a; simpl in Hnan;
    match goal with
    | |- context [abs (abs (?p - ?s)) <? ?t] =>
      lazymatch type of Hnan with
      | is_nan s = true =>
        rewrite (ltb_nan_l (abs (abs (p - s))) t (abs_sub_nan p s Hnan))
      end
    end; rewrite ?andb_false_r; reflexivity.
Qed.

Lemma nan_target_never_converges_witness :
  below_threshold
    (get_position_error
       (ticks [full_period; full_period]
          (set_new_goal CameraController_init (mkPoint 0.0 nan 0.0))))
  = false.
Proof.
  apply (nan_target_never_converges CameraController_init
           (mkPoint 0.0 nan 0.0) AxisY [full_period; full_period]).
  reflexivity.
Defined.
